(** * YouGile MCP server: the HTTP client core

    A shallow embedding of [src/core/exceptions.py], [src/core/auth.py],
    [src/core/client.py] and the part of [src/config/settings.py] they read,
    followed by the properties of the retry loop, the header selection, the
    response classification and the credential store.

    Conventions of the embedding.
    - A Python [str] is a Rocq [string] read as a sequence of code points
      below 256; [int] is [Z]; [Optional[T]] is [option T]; a [dict] with
      string keys is a [gmap string _], so that equality of dictionaries does
      not depend on insertion order.
    - A method that may raise returns a [Result]; a method that assigns to
      [self] returns the new object next to its result.
    - The two effects of [YouGileClient.request], sending a request on the
      connection pool and sleeping, are recorded in a trace of [Event]s; what
      the pool answers is a parameter of the model ([transport]). *)

From Stdlib Require Import ZArith String Ascii List Lia Bool DecimalString.
From stdpp Require Import base option gmap strings.

Set Warnings "-register-all".
#[local] Open Scope string_scope.
#[local] Open Scope Z_scope.

(** ** Python values and string primitives *)

(** What [json.loads] (hence [httpx.Response.json]) can return, and what the
    client passes around as [Dict[str, Any]]. A float keeps its literal. *)
Inductive pyval : Type :=
| PNone
| PBool (b : bool)
| PInt (n : Z)
| PFloat (lit : string)
| PStr (s : string)
| PList (l : list pyval)
| PDict (d : gmap string pyval).

(** [type(v).__name__], as it appears in the message of an [AttributeError]. *)
Definition type_name (v : pyval) : string :=
  match v with
  | PNone => "NoneType"
  | PBool _ => "bool"
  | PInt _ => "int"
  | PFloat _ => "float"
  | PStr _ => "str"
  | PList _ => "list"
  | PDict _ => "dict"
  end.

(** [str(n)] for an [int]. *)
Definition str_int (n : Z) : string := NilZero.string_of_int (Z.to_int n).

(** [s.startswith(p)]. *)
Definition startswith (s p : string) : bool := String.prefix p s.

(** [c.isspace()] for a code point below 256: the ASCII controls 9-13 and
    28-31, the space, NEL (133) and the no-break space (160). *)
Definition isspace (c : ascii) : bool :=
  let n := N_of_ascii c in
  (((9 <=? n) && (n <=? 13)) || ((28 <=? n) && (n <=? 31)) || (n =? 32)
   || (n =? 133) || (n =? 160))%N.

Fixpoint lstrip (s : string) : string :=
  match s with
  | EmptyString => EmptyString
  | String c s' => if isspace c then lstrip s' else s
  end.

Fixpoint rstrip (s : string) : string :=
  match s with
  | EmptyString => EmptyString
  | String c s' =>
      match rstrip s' with
      | EmptyString => if isspace c then EmptyString else String c EmptyString
      | r => String c r
      end
  end.

(** [s.strip()]: leading and trailing whitespace removed. *)
Definition strip (s : string) : string := rstrip (lstrip s).

(** Truth value of a [str]: the empty string is false. *)
Definition truthy (s : string) : bool :=
  match s with EmptyString => false | _ => true end.

(** Truth value of an [Optional[str]]: [None] and the empty string are false. *)
Definition truthy_opt (o : option string) : bool :=
  match o with Some s => truthy s | None => false end.

(** A string made of whitespace only (the empty string included). *)
Fixpoint blank (s : string) : bool :=
  match s with
  | EmptyString => true
  | String c s' => isspace c && blank s'
  end.

(** ** src/core/exceptions.py *)

Module exceptions.

(** The class of a raised [YouGileError], with the attributes the subclass
    adds to the base class. *)
Inductive ErrorClass : Type :=
| YouGileError_
| AuthenticationError_
| AuthorizationError_
| RateLimitError_
| ValidationError_ (field : option string)
| NotFoundError_ (resource_type resource_id : option string).

(** The attributes [YouGileError.__init__] sets. *)
Record error : Type := {
  class_ : ErrorClass;
  message : pyval;
  status_code : option Z;
  details : gmap string pyval
}.

(** [details or {}]. *)
Definition details_or_empty (details : option (gmap string pyval))
  : gmap string pyval :=
  match details with
  | Some d => if decide (d = ∅) then ∅ else d
  | None => ∅
  end.

Definition YouGileError (message : pyval) (status_code : option Z)
    (details : option (gmap string pyval)) : error :=
  {| class_ := YouGileError_; message := message;
     status_code := status_code; details := details_or_empty details |}.

(** [super().__init__(message, status_code=...)] from a subclass. *)
Definition super_init (c : ErrorClass) (message : pyval) (code : Z) : error :=
  {| class_ := c; message := message;
     status_code := status_code (YouGileError message (Some code) None);
     details := details (YouGileError message (Some code) None) |}.

Definition AuthenticationError (message : pyval) : error :=
  super_init AuthenticationError_ message 401.

Definition AuthorizationError (message : pyval) : error :=
  super_init AuthorizationError_ message 403.

Definition RateLimitError (message : pyval) : error :=
  super_init RateLimitError_ message 429.

Definition ValidationError (message : pyval) (field : option string) : error :=
  super_init (ValidationError_ field) message 400.

Definition NotFoundError (message : pyval)
    (resource_type resource_id : option string) : error :=
  super_init (NotFoundError_ resource_type resource_id) message 404.

End exceptions.

(** Everything the modelled code can raise or let through. *)
Inductive Exception : Type :=
| RuntimeError (msg : string)
| AttributeError (msg : string)
| TimeoutException (msg : string)      (* httpx.TimeoutException *)
| NetworkError (msg : string)          (* httpx.NetworkError *)
| OtherException (name msg : string)   (* anything else the pool raises *)
| YouGile (e : exceptions.error).

Inductive Result (A : Type) : Type :=
| Return (a : A)
| Raise (e : Exception).

Arguments Return {A} a.
Arguments Raise {A} e.

Definition raises {A : Type} (r : Result A) : bool :=
  match r with Return _ => false | Raise _ => true end.

(** ** src/config/settings.py *)

Module Settings.

(** The fields of [Settings] the client reads. Each is a plain [int] or
    [str] field of the pydantic model: no range is enforced on it. *)
Record t : Type := {
  yougile_base_url : string;
  yougile_timeout : Z;
  yougile_max_retries : Z
}.

(** The declared defaults. *)
Definition default : t :=
  {| yougile_base_url := "https://yougile.com";
     yougile_timeout := 30;
     yougile_max_retries := 3 |}.

End Settings.

(** ** src/core/auth.py *)

Module AuthManager.

Record t : Type := {
  _api_key : option string;
  _company_id : option string
}.

Definition __init__ (api_key company_id : option string) : t :=
  {| _api_key := api_key; _company_id := company_id |}.

Definition api_key (self : t) : option string := _api_key self.

Definition company_id (self : t) : option string := _company_id self.

Definition set_credentials (self : t) (api_key company_id : string)
  : Result unit * t :=
  if negb (truthy api_key) || negb (truthy (strip api_key)) then
    (Raise (YouGile (exceptions.ValidationError
                       (PStr "API key cannot be empty") None)), self)
  else if negb (truthy company_id) || negb (truthy (strip company_id)) then
    (Raise (YouGile (exceptions.ValidationError
                       (PStr "Company ID cannot be empty") None)), self)
  else
    let self1 := {| _api_key := Some (strip api_key);
                    _company_id := _company_id self |} in
    let self2 := {| _api_key := _api_key self1;
                    _company_id := Some (strip company_id) |} in
    (Return tt, self2).

(** [f"{o}"] for an [Optional[str]]. *)
Definition format_opt (o : option string) : string :=
  match o with Some s => s | None => "None" end.

Definition get_auth_headers (self : t) : Result (gmap string string) :=
  if negb (truthy_opt (_api_key self)) then
    Raise (YouGile (exceptions.AuthenticationError
                      (PStr "No API key configured")))
  else
    Return (<["Authorization" := "Bearer " +:+ format_opt (_api_key self)]>
              (<["Content-Type" := "application/json"]>
                 (<["Accept" := "application/json"]> ∅))).

Definition get_basic_headers (self : t) : gmap string string :=
  <["Content-Type" := "application/json"]>
    (<["Accept" := "application/json"]> ∅).

Definition is_authenticated (self : t) : bool :=
  truthy_opt (_api_key self) && truthy_opt (_company_id self).

Definition clear_credentials (self : t) : t :=
  {| _api_key := None; _company_id := None |}.

(** The module-level instance, [auth_manager = AuthManager()]. *)
Definition auth_manager : t := __init__ None None.

(** The calls that assign to the credential of an existing manager. *)
Inductive op : Type :=
| SetCredentials (api_key company_id : string)
| ClearCredentials.

Definition step (self : t) (o : op) : t :=
  match o with
  | SetCredentials k c => snd (set_credentials self k c)
  | ClearCredentials => clear_credentials self
  end.

(** The manager after a sequence of calls, whether they raise or not. *)
Definition run (self : t) (ops : list op) : t := fold_left step ops self.

(** Both fields hold a non-empty string, or both are [None]. *)
Definition paired (self : t) : bool :=
  match _api_key self, _company_id self with
  | Some k, Some c => truthy k && truthy c
  | None, None => true
  | _, _ => false
  end.

End AuthManager.

(** ** src/core/client.py *)

(** What one call of [httpx.AsyncClient.request] is given. *)
Record HttpRequest : Type := {
  rq_method : string;
  rq_url : string;
  rq_json : option (gmap string pyval);
  rq_params : option (gmap string pyval);
  rq_headers : gmap string string
}.

(** What the client reads of an [httpx.Response]. [json] is the outcome of
    [response.json()]: [None] stands for the [ValueError] of a body that does
    not decode. *)
Record Response : Type := {
  status_code : Z;
  text : string;
  json : option pyval
}.

(** The effects of a request, in the order they happen. *)
Inductive Event : Type :=
| EvRequest (attempt : nat) (rq : HttpRequest)
| EvSleep (seconds : Z).

(** A computation that may raise and appends to the trace of effects. *)
Definition IO (A : Type) : Type := list Event -> Result A * list Event.

Definition ret {A : Type} (a : A) : IO A := fun tr => (Return a, tr).

Definition raise {A : Type} (e : Exception) : IO A := fun tr => (Raise e, tr).

Definition lift {A : Type} (r : Result A) : IO A := fun tr => (r, tr).

Definition bind {A B : Type} (m : IO A) (k : A -> IO B) : IO B :=
  fun tr =>
    match m tr with
    | (Return a, tr') => k a tr'
    | (Raise e, tr') => (Raise e, tr')
    end.

(** [try: body except ...: handler]: the handler answers [None] for an
    exception no [except] clause matches, which then propagates. *)
Definition try_except {A : Type} (body : IO A)
    (handler : Exception -> option (IO A)) : IO A :=
  fun tr =>
    match body tr with
    | (Return a, tr') => (Return a, tr')
    | (Raise e, tr') =>
        match handler e with
        | Some h => h tr'
        | None => (Raise e, tr')
        end
    end.

Declare Scope io_scope.
Delimit Scope io_scope with io.
Notation "x <- m ;; k" := (bind m (fun x => k))
  (at level 100, m at next level, right associativity) : io_scope.
Notation "m ;; k" := (bind m (fun _ => k))
  (at level 100, right associativity) : io_scope.

(** A [for] statement inside a function: the body answers [Some v] when it
    executes [return v] and [None] when it reaches its end; the loop answers
    [None] when the iterable is exhausted and control goes on to the statement
    after the loop. *)
Fixpoint for_each {A : Type} (xs : list nat) (body : nat -> IO (option A))
  : IO (option A) :=
  match xs with
  | [] => ret None
  | x :: xs' =>
      (r <- body x ;;
       match r with
       | Some v => ret (Some v)
       | None => for_each xs' body
       end)%io
  end.

(** [range(n)]. *)
Definition range (n : Z) : list nat := seq 0 (Z.to_nat n).

Module YouGileClient.

(** The pool [__aenter__] opens. *)
Record AsyncClient : Type := {
  pool_base_url : string;
  pool_timeout : Z;
  max_keepalive_connections : Z;
  max_connections : Z
}.

Record t : Type := {
  auth_manager : AuthManager.t;
  base_url : string;
  _client : option AsyncClient
}.

(** [full_url] as [request] computes it from [path]. *)
Definition full_url (path : string) : string :=
  if negb (startswith path "/api-v2") then "/api-v2" +:+ path else path.

(** [_handle_response] reads no attribute of [self]. *)
Definition _handle_response (response : Response) : Result pyval :=
  if (status_code response =? 200) || (status_code response =? 201) then
    match json response with
    | Some body => Return body
    | None =>
        Return (PDict (<["success" := PBool true]>
                         (<["data" := PStr (text response)]> ∅)))
    end
  else
    let error_data :=
      match json response with
      | Some body => body
      | None =>
          PDict (<["error" :=
                     PStr (if truthy (text response) then text response
                           else "HTTP " +:+ str_int (status_code response))]> ∅)
      end in
    match error_data with
    | PDict d =>
        let error_message :=
          default (PStr ("HTTP " +:+ str_int (status_code response)))
                  (d !! "error") in
        if status_code response =? 401 then
          Raise (YouGile (exceptions.AuthenticationError error_message))
        else if status_code response =? 403 then
          Raise (YouGile (exceptions.AuthorizationError error_message))
        else if status_code response =? 404 then
          Raise (YouGile (exceptions.NotFoundError error_message None None))
        else if status_code response =? 429 then
          Raise (YouGile (exceptions.RateLimitError error_message))
        else
          Raise (YouGile (exceptions.YouGileError error_message
                            (Some (status_code response)) (Some d)))
    | other =>
        Raise (AttributeError ("'" +:+ type_name other
                               +:+ "' object has no attribute 'get'"))
    end.

Section Request.

Variable settings : Settings.t.

(** [transport attempt rq]: what the pool does with the request sent in
    iteration [attempt] of one logical request: a response, or an
    exception. *)
Variable transport : nat -> HttpRequest -> Result Response.

Definition __init__ (auth_manager : option AuthManager.t) : t :=
  {| auth_manager := default (AuthManager.__init__ None None) auth_manager;
     base_url := Settings.yougile_base_url settings;
     _client := None |}.

Definition __aenter__ (self : t) : t :=
  {| auth_manager := auth_manager self;
     base_url := base_url self;
     _client := Some {| pool_base_url := base_url self;
                        pool_timeout := Settings.yougile_timeout settings;
                        max_keepalive_connections := 10;
                        max_connections := 100 |} |}.

(** [aclose] releases the pool; the attribute [_client] stays bound. *)
Definition __aexit__ (self : t) : t := self.

(** [await self._client.request(...)]. *)
Definition client_request (attempt : nat) (rq : HttpRequest) : IO Response :=
  fun tr => (transport attempt rq, (tr ++ [EvRequest attempt rq])%list).

(** [await asyncio.sleep(seconds)]. *)
Definition sleep (seconds : Z) : IO unit :=
  fun tr => (Return tt, (tr ++ [EvSleep seconds])%list).

(** The body of the [for attempt in range(...)] statement of [request]. *)
Definition request_attempt (rq : HttpRequest) (attempt : nat)
  : IO (option pyval) :=
  try_except
    (response <- client_request attempt rq ;;
     body <- lift (_handle_response response) ;;
     ret (Some body))%io
    (fun e =>
       match e with
       | TimeoutException _ =>
           Some (if Z.of_nat attempt =? Settings.yougile_max_retries settings
                 then raise (YouGile (exceptions.YouGileError
                                        (PStr "Request timeout") None None))
                 else (sleep (2 ^ Z.of_nat attempt) ;; ret None)%io)
       | NetworkError msg =>
           Some (if Z.of_nat attempt =? Settings.yougile_max_retries settings
                 then raise (YouGile (exceptions.YouGileError
                                        (PStr ("Network error: " +:+ msg))
                                        None None))
                 else (sleep (2 ^ Z.of_nat attempt) ;; ret None)%io)
       | _ => None
       end).

(** The [for] statement of [request]. *)
Definition retry_loop (rq : HttpRequest) : IO (option pyval) :=
  for_each (range (Settings.yougile_max_retries settings + 1))
           (request_attempt rq).

(** [request]. Extra keyword arguments are passed on to the pool
    untouched; [get], [post], [put] and [delete] give none, and the model
    has none. *)
Definition request (self : t) (method path : string)
    (json params : option (gmap string pyval)) : IO pyval :=
  match _client self with
  | None =>
      raise (RuntimeError
               "Client not initialized. Use 'async with' context manager.")
  | Some _ =>
      (headers <-
         (if startswith path "/auth/" || startswith path "/api-v2/auth/"
          then ret (AuthManager.get_basic_headers (auth_manager self))
          else lift (AuthManager.get_auth_headers (auth_manager self))) ;;
       r <- retry_loop {| rq_method := method; rq_url := full_url path;
                          rq_json := json; rq_params := params;
                          rq_headers := headers |} ;;
       match r with
       | Some body => ret body
       | None =>
           raise (YouGile (exceptions.YouGileError
                             (PStr "Max retries exceeded") None None))
       end)%io
  end.

Definition get (self : t) (path : string)
    (params : option (gmap string pyval)) : IO pyval :=
  request self "GET" path None params.

Definition post (self : t) (path : string)
    (json params : option (gmap string pyval)) : IO pyval :=
  request self "POST" path json params.

Definition put (self : t) (path : string)
    (json : option (gmap string pyval)) : IO pyval :=
  request self "PUT" path json None.

Definition delete (self : t) (path : string) : IO pyval :=
  request self "DELETE" path None None.

End Request.

End YouGileClient.

(** ** Vocabulary of the statements *)

(** The requests sent on the pool, in order. *)
Fixpoint sent (tr : list Event) : list HttpRequest :=
  match tr with
  | [] => []
  | EvRequest _ rq :: tr' => rq :: sent tr'
  | EvSleep _ :: tr' => sent tr'
  end.

(** The number of attempts a trace records. *)
Definition attempts (tr : list Event) : nat := length (sent tr).

(** The delays slept, in order. *)
Fixpoint delays (tr : list Event) : list Z :=
  match tr with
  | [] => []
  | EvRequest _ _ :: tr' => delays tr'
  | EvSleep d :: tr' => d :: delays tr'
  end.

(** [k] attempts, numbered from [start], each followed by its backoff delay. *)
Fixpoint failed_attempts (rq : HttpRequest) (start k : nat) : list Event :=
  match k with
  | O => []
  | S k' =>
      EvRequest start rq :: EvSleep (2 ^ Z.of_nat start)
        :: failed_attempts rq (S start) k'
  end.

(** The trace of a logical request that made [n] attempts: every attempt but
    the last is followed by the delay [2 ^ attempt]. *)
Definition schedule (rq : HttpRequest) (n : nat) : list Event :=
  match n with
  | O => []
  | S k => (failed_attempts rq 0 k ++ [EvRequest k rq])%list
  end.

(** The outcomes of the pool after which the loop may go round again. *)
Definition retryable (o : Result Response) : bool :=
  match o with
  | Raise (TimeoutException _) | Raise (NetworkError _) => true
  | _ => false
  end.

(** What [request] answers when the attempt that ends the loop had outcome
    [o]. *)
Definition conclude (o : Result Response) : Result pyval :=
  match o with
  | Return response => YouGileClient._handle_response response
  | Raise (TimeoutException _) =>
      Raise (YouGile (exceptions.YouGileError (PStr "Request timeout") None None))
  | Raise (NetworkError msg) =>
      Raise (YouGile (exceptions.YouGileError
                        (PStr ("Network error: " +:+ msg)) None None))
  | Raise e => Raise e
  end.

(** Attempt [attempt] with outcome [o] ends the loop: the outcome is not a
    transport failure, or this is the last iteration. *)
Definition stops (max_retries : Z) (o : Result Response) (attempt : nat) : bool :=
  negb (retryable o) || (Z.of_nat attempt =? max_retries).

(** The headers [request] selects for [path]. *)
Definition select_headers (am : AuthManager.t) (path : string)
  : Result (gmap string string) :=
  if startswith path "/auth/" || startswith path "/api-v2/auth/"
  then Return (AuthManager.get_basic_headers am)
  else AuthManager.get_auth_headers am.

(** The request [request] sends once it has selected [headers]. *)
Definition outgoing (method path : string)
    (json params : option (gmap string pyval))
    (headers : gmap string string) : HttpRequest :=
  {| rq_method := method; rq_url := YouGileClient.full_url path;
     rq_json := json; rq_params := params; rq_headers := headers |}.

(** The payload the error branch works on. *)
Definition error_payload (response : Response) : pyval :=
  match json response with
  | Some body => body
  | None =>
      PDict (<["error" :=
                 PStr (if truthy (text response) then text response
                       else "HTTP " +:+ str_int (status_code response))]> ∅)
  end.

(** The error class and attributes a status code selects. *)
Definition classified (code : Z) (msg : pyval) (d : gmap string pyval)
  : exceptions.error :=
  if code =? 401 then exceptions.AuthenticationError msg
  else if code =? 403 then exceptions.AuthorizationError msg
  else if code =? 404 then exceptions.NotFoundError msg None None
  else if code =? 429 then exceptions.RateLimitError msg
  else exceptions.YouGileError msg (Some code) (Some d).

(** The four ways a call of [request] on an empty trace can go. *)
Inductive request_run (settings : Settings.t)
    (transport : nat -> HttpRequest -> Result Response)
    (self : YouGileClient.t) (method path : string)
    (json params : option (gmap string pyval))
  : Result pyval * list Event -> Prop :=
| run_not_initialized :
    YouGileClient._client self = None ->
    request_run settings transport self method path json params
      (Raise (RuntimeError
                "Client not initialized. Use 'async with' context manager."),
       [])
| run_no_headers (pool : YouGileClient.AsyncClient) (e : Exception) :
    YouGileClient._client self = Some pool ->
    select_headers (YouGileClient.auth_manager self) path = Raise e ->
    request_run settings transport self method path json params (Raise e, [])
| run_no_iteration (pool : YouGileClient.AsyncClient)
    (headers : gmap string string) :
    YouGileClient._client self = Some pool ->
    select_headers (YouGileClient.auth_manager self) path = Return headers ->
    Settings.yougile_max_retries settings < 0 ->
    request_run settings transport self method path json params
      (Raise (YouGile (exceptions.YouGileError
                         (PStr "Max retries exceeded") None None)), [])
| run_stopped (pool : YouGileClient.AsyncClient)
    (headers : gmap string string) (k : nat) :
    YouGileClient._client self = Some pool ->
    select_headers (YouGileClient.auth_manager self) path = Return headers ->
    Z.of_nat k <= Settings.yougile_max_retries settings ->
    (forall i, (i < k)%nat ->
       stops (Settings.yougile_max_retries settings)
             (transport i (outgoing method path json params headers)) i = false) ->
    stops (Settings.yougile_max_retries settings)
          (transport k (outgoing method path json params headers)) k = true ->
    request_run settings transport self method path json params
      (conclude (transport k (outgoing method path json params headers)),
       schedule (outgoing method path json params headers) (S k)).

Definition result_map {A B : Type} (f : A -> B) (r : Result A) : Result B :=
  match r with Return a => Return (f a) | Raise e => Raise e end.

(** Sample objects for the closed instances below. *)
Module Sample.

Definition manager : AuthManager.t :=
  AuthManager.__init__ (Some "key-1") (Some "company-1").

Definition pool : YouGileClient.AsyncClient :=
  {| YouGileClient.pool_base_url := "https://yougile.com";
     YouGileClient.pool_timeout := 30;
     YouGileClient.max_keepalive_connections := 10;
     YouGileClient.max_connections := 100 |}.

(** A client inside its [async with] block. *)
Definition client (am : AuthManager.t) : YouGileClient.t :=
  YouGileClient.__aenter__ Settings.default
    (YouGileClient.__init__ Settings.default (Some am)).

Definition with_retries (n : Z) : Settings.t :=
  {| Settings.yougile_base_url := "https://yougile.com";
     Settings.yougile_timeout := 30;
     Settings.yougile_max_retries := n |}.

Definition always_timeout : nat -> HttpRequest -> Result Response :=
  fun _ _ => Raise (TimeoutException "timed out").

Definition always (response : Response)
  : nat -> HttpRequest -> Result Response :=
  fun _ _ => Return response.

(** Two timeouts, then the given response. *)
Definition third_time (response : Response)
  : nat -> HttpRequest -> Result Response :=
  fun attempt _ =>
    if (attempt <? 2)%nat then Raise (TimeoutException "timed out")
    else Return response.

Definition ok_body : Response :=
  {| status_code := 200; text := "[7, 8]";
     json := Some (PList [PInt 7; PInt 8]) |}.

(** The double quote, and a JSON string literal without escapes. *)
Definition quoted (s : string) : string :=
  String (ascii_of_nat 34) s +:+ String (ascii_of_nat 34) EmptyString.

(** A 404 with body [{"error":"task not found"}]. *)
Definition task_not_found : Response :=
  {| status_code := 404;
     text := "{" +:+ quoted "error" +:+ ":" +:+ quoted "task not found" +:+ "}";
     json := Some (PDict {[ "error" := PStr "task not found" ]}) |}.

End Sample.

(** ** More string primitives *)

(** [c.lower()] for a code point below 256: the ASCII capitals and the
    Latin-1 capitals 192-222 (the multiplication sign 215 apart) move up
    by 32. *)
Definition lower_char (c : ascii) : ascii :=
  let n := N_of_ascii c in
  if (((65 <=? n) && (n <=? 90))
      || ((192 <=? n) && (n <=? 222) && negb (n =? 215)))%N
  then ascii_of_N (n + 32) else c.

(** [s.lower()]. *)
Fixpoint lower (s : string) : string :=
  match s with
  | EmptyString => EmptyString
  | String c s' => String (lower_char c) (lower s')
  end.

(** [len(s)]. *)
Definition len (s : string) : Z := Z.of_nat (String.length s).

(** Every character of [s] satisfies [p]. *)
Fixpoint all_chars (p : ascii -> bool) (s : string) : bool :=
  match s with
  | EmptyString => true
  | String c s' => p c && all_chars p s'
  end.

(** The number of occurrences of [c] in [s]. *)
Fixpoint count_char (c : ascii) (s : string) : nat :=
  match s with
  | EmptyString => O
  | String c' s' => (if Ascii.eqb c c' then 1 else 0) + count_char c s'
  end.

(** [v.get(key, dflt)]: only a [dict] has the method. *)
Definition py_get (v : pyval) (key : string) (dflt : pyval) : Result pyval :=
  match v with
  | PDict d => Return (default dflt (d !! key))
  | other =>
      Raise (AttributeError ("'" +:+ type_name other
                             +:+ "' object has no attribute 'get'"))
  end.

(** ** Regular expressions, as [re.match] reads the pattern of
    [validate_email] *)

Module re.

(** The constructs the pattern uses: character sets, sequence, choice and
    repetition. *)
Inductive regex : Type :=
| Never
| Empty
| Set_ (p : ascii -> bool)
| Seq (r1 r2 : regex)
| Alt (r1 r2 : regex)
| Star (r : regex).

(** [r+] and [r{2,}]. *)
Definition Plus (r : regex) : regex := Seq r (Star r).

Definition TwoOrMore (r : regex) : regex := Seq r (Seq r (Star r)).

(** [$] outside multi-line mode: the end of the string, or a newline that is
    its last character. *)
Definition Dollar : regex := Alt Empty (Set_ (Ascii.eqb (ascii_of_nat 10))).

Fixpoint nullable (r : regex) : bool :=
  match r with
  | Never => false
  | Empty => true
  | Set_ _ => false
  | Seq r1 r2 => nullable r1 && nullable r2
  | Alt r1 r2 => nullable r1 || nullable r2
  | Star _ => true
  end.

(** What is left of [r] to match once [c] is read. *)
Fixpoint deriv (c : ascii) (r : regex) : regex :=
  match r with
  | Never => Never
  | Empty => Never
  | Set_ p => if p c then Empty else Never
  | Seq r1 r2 =>
      if nullable r1 then Alt (Seq (deriv c r1) r2) (deriv c r2)
      else Seq (deriv c r1) r2
  | Alt r1 r2 => Alt (deriv c r1) (deriv c r2)
  | Star r1 => Seq (deriv c r1) (Star r1)
  end.

(** [re.match("^" r, s)] for an [r] that ends in [$]: the whole of [s] is
    read. *)
Fixpoint match_ (r : regex) (s : string) : bool :=
  match s with
  | EmptyString => nullable r
  | String c s' => match_ (deriv c r) s'
  end.

(** The strings of a pattern. *)
Inductive Matches : regex -> string -> Prop :=
| MEmpty : Matches Empty EmptyString
| MSet (p : ascii -> bool) (c : ascii) :
    p c = true -> Matches (Set_ p) (String c EmptyString)
| MSeq (r1 r2 : regex) (s1 s2 : string) :
    Matches r1 s1 -> Matches r2 s2 -> Matches (Seq r1 r2) (s1 +:+ s2)
| MAltL (r1 r2 : regex) (s : string) : Matches r1 s -> Matches (Alt r1 r2) s
| MAltR (r1 r2 : regex) (s : string) : Matches r2 s -> Matches (Alt r1 r2) s
| MStarNil (r : regex) : Matches (Star r) EmptyString
| MStarCons (r : regex) (s1 s2 : string) :
    Matches r s1 -> Matches (Star r) s2 -> Matches (Star r) (s1 +:+ s2).

End re.

(** ** src/utils/validation.py *)

Module validation.

Definition is_local_char (c : ascii) : bool :=
  let n := N_of_ascii c in
  (((97 <=? n) && (n <=? 122)) || ((65 <=? n) && (n <=? 90))
   || ((48 <=? n) && (n <=? 57))
   || (n =? 46) || (n =? 95) || (n =? 37) || (n =? 43) || (n =? 45))%N.

Definition is_domain_char (c : ascii) : bool :=
  let n := N_of_ascii c in
  (((97 <=? n) && (n <=? 122)) || ((65 <=? n) && (n <=? 90))
   || ((48 <=? n) && (n <=? 57)) || (n =? 46) || (n =? 45))%N.

Definition is_alpha_char (c : ascii) : bool :=
  let n := N_of_ascii c in
  (((97 <=? n) && (n <=? 122)) || ((65 <=? n) && (n <=? 90)))%N.

(** The pattern of [validate_email],
    [^[a-zA-Z0-9._%+-]+@[a-zA-Z0-9.-]+\.[a-zA-Z]{2,}$]. *)
Definition pattern : re.regex :=
  re.Seq (re.Plus (re.Set_ is_local_char))
    (re.Seq (re.Set_ (Ascii.eqb "@"))
       (re.Seq (re.Plus (re.Set_ is_domain_char))
          (re.Seq (re.Set_ (Ascii.eqb "."))
             (re.Seq (re.TwoOrMore (re.Set_ is_alpha_char)) re.Dollar)))).

Definition validate_email (email : pyval) : Result string :=
  match email with
  | PStr s =>
      if negb (truthy s) then
        Raise (YouGile (exceptions.ValidationError
                          (PStr "Email is required") (Some "email")))
      else
        let email := lower (strip s) in
        if negb (re.match_ pattern email) then
          Raise (YouGile (exceptions.ValidationError
                            (PStr "Invalid email format") (Some "email")))
        else Return email
  | _ =>
      Raise (YouGile (exceptions.ValidationError
                        (PStr "Email is required") (Some "email")))
  end.

Definition validate_required_fields_field (data : gmap string pyval)
    (field : string) : Result unit :=
  match data !! field with
  | None =>
      Raise (YouGile (exceptions.ValidationError
                        (PStr ("Field '" +:+ field +:+ "' is required"))
                        (Some field)))
  | Some value =>
      if match value with
         | PNone => true
         | PStr s => negb (truthy (strip s))
         | _ => false
         end
      then Raise (YouGile (exceptions.ValidationError
                             (PStr ("Field '" +:+ field +:+ "' cannot be empty"))
                             (Some field)))
      else Return tt
  end.

(** The loop of [validate_required_fields]; the function above is its body. *)
Fixpoint validate_required_fields (data : gmap string pyval)
    (required_fields : list string) : Result unit :=
  match required_fields with
  | [] => Return tt
  | field :: rest =>
      match validate_required_fields_field data field with
      | Raise e => Raise e
      | Return _ => validate_required_fields data rest
      end
  end.

(** [limit] and [offset] are [int] or [None]. *)
Definition validate_pagination (limit offset : option Z)
  : Result (gmap string Z) :=
  match
    match limit with
    | Some l =>
        if (l <? 1) || (l >? 1000) then
          Raise (YouGile (exceptions.ValidationError
                            (PStr "Limit must be between 1 and 1000")
                            (Some "limit")))
        else Return l
    | None => Return 50
    end
  with
  | Raise e => Raise e
  | Return limit =>
      match
        match offset with
        | Some o =>
            if o <? 0 then
              Raise (YouGile (exceptions.ValidationError
                                (PStr "Offset must be non-negative")
                                (Some "offset")))
            else Return o
        | None => Return 0
        end
      with
      | Raise e => Raise e
      | Return offset => Return {[ "limit" := limit; "offset" := offset ]}
      end
  end.

(** [max_length] is an [int] or [None]; [None] and [0] are false. *)
Definition validate_non_empty_string (value : pyval) (field_name : string)
    (max_length : option Z) : Result string :=
  match value with
  | PStr s =>
      if negb (truthy s) then
        Raise (YouGile (exceptions.ValidationError
                          (PStr (field_name +:+ " is required"))
                          (Some field_name)))
      else
        let value := strip s in
        if negb (truthy value) then
          Raise (YouGile (exceptions.ValidationError
                            (PStr (field_name +:+ " cannot be empty"))
                            (Some field_name)))
        else
          match max_length with
          | Some m =>
              if negb (m =? 0) && (len value >? m) then
                Raise (YouGile (exceptions.ValidationError
                                  (PStr (field_name +:+ " cannot exceed "
                                         +:+ str_int m +:+ " characters"))
                                  (Some field_name)))
              else Return value
          | None => Return value
          end
  | _ =>
      Raise (YouGile (exceptions.ValidationError
                        (PStr (field_name +:+ " is required"))
                        (Some field_name)))
  end.

Section Uuid.

(** [uuid_UUID value] tells whether [uuid.UUID(value)] accepts the string;
    otherwise it raises [ValueError]. The parser belongs to the standard
    library and is left open. *)
Variable uuid_UUID : string -> bool.

Definition validate_uuid (value : pyval) (field_name : string)
  : Result string :=
  match value with
  | PStr s =>
      if negb (truthy s) then
        Raise (YouGile (exceptions.ValidationError
                          (PStr (field_name +:+ " is required"))
                          (Some field_name)))
      else if uuid_UUID s then Return (strip s)
      else
        Raise (YouGile (exceptions.ValidationError
                          (PStr (field_name +:+ " must be a valid UUID"))
                          (Some field_name)))
  | _ =>
      Raise (YouGile (exceptions.ValidationError
                        (PStr (field_name +:+ " is required"))
                        (Some field_name)))
  end.

End Uuid.

End validation.

(** ** src/api/auth.py and src/api/users.py *)

Module api.

Section Endpoints.

Variable settings : Settings.t.
Variable transport : nat -> HttpRequest -> Result Response.
Variable uuid_UUID : string -> bool.

(** api/auth.py *)

Definition get_companies (client : YouGileClient.t) (login password : string)
    (limit offset : Z) : IO pyval :=
  (login' <- lift (validation.validate_email (PStr login)) ;;
   let credentials : gmap string pyval :=
     {[ "login" := PStr login'; "password" := PStr password ]} in
   let params : gmap string pyval :=
     {[ "limit" := PInt limit; "offset" := PInt offset ]} in
   response <- YouGileClient.post settings transport client "/auth/companies"
                 (Some credentials) (Some params) ;;
   lift (py_get response "content" (PList [])))%io.

Definition get_api_keys (client : YouGileClient.t) (login password : string)
    (company_id : option string) : IO pyval :=
  (login' <- lift (validation.validate_email (PStr login)) ;;
   let credentials : gmap string pyval :=
     {[ "login" := PStr login'; "password" := PStr password ]} in
   credentials <-
     match company_id with
     | Some c =>
         if truthy c then
           company <- lift (validation.validate_uuid uuid_UUID (PStr c)
                              "companyId") ;;
           ret (<["companyId" := PStr company]> credentials)
         else ret credentials
     | None => ret credentials
     end ;;
   response <- YouGileClient.post settings transport client "/auth/keys/get"
                 (Some credentials) None ;;
   ret (match response with PList _ => response | _ => PList [] end))%io.

Definition create_api_key (client : YouGileClient.t)
    (login password company_id : string) : IO pyval :=
  (login' <- lift (validation.validate_email (PStr login)) ;;
   company <- lift (validation.validate_uuid uuid_UUID (PStr company_id)
                      "companyId") ;;
   let credentials : gmap string pyval :=
     {[ "login" := PStr login'; "password" := PStr password;
        "companyId" := PStr company ]} in
   response <- YouGileClient.post settings transport client "/auth/keys"
                 (Some credentials) None ;;
   lift (py_get response "key" (PStr EmptyString)))%io.

(** api/users.py *)

Definition get_users (client : YouGileClient.t) : IO pyval :=
  (response <- YouGileClient.get settings transport client "/users" None ;;
   lift (py_get response "content" (PList [])))%io.

Definition invite_user (client : YouGileClient.t)
    (user_data : gmap string pyval) : IO pyval :=
  YouGileClient.post settings transport client "/users" (Some user_data) None.

Definition get_user (client : YouGileClient.t) (user_id : string) : IO pyval :=
  (user_id <- lift (validation.validate_uuid uuid_UUID (PStr user_id)
                      "user_id") ;;
   YouGileClient.get settings transport client ("/users/" +:+ user_id) None)%io.

Definition update_user (client : YouGileClient.t) (user_id : string)
    (user_data : gmap string pyval) : IO pyval :=
  (user_id <- lift (validation.validate_uuid uuid_UUID (PStr user_id)
                      "user_id") ;;
   YouGileClient.put settings transport client ("/users/" +:+ user_id)
     (Some user_data))%io.

Definition delete_user (client : YouGileClient.t) (user_id : string)
  : IO pyval :=
  (user_id <- lift (validation.validate_uuid uuid_UUID (PStr user_id)
                      "user_id") ;;
   YouGileClient.delete settings transport client ("/users/" +:+ user_id))%io.

End Endpoints.

End api.

(** The shape of an address the pattern of [validate_email] describes. *)
Definition email_shape (e : string) : Prop :=
  exists local domain tld,
    e = local +:+ "@" +:+ domain +:+ "." +:+ tld
    /\ local <> EmptyString
    /\ all_chars validation.is_local_char local = true
    /\ domain <> EmptyString
    /\ all_chars validation.is_domain_char domain = true
    /\ (2 <= String.length tld)%nat
    /\ all_chars validation.is_alpha_char tld = true.

(** [field] is present in [data] with a value other than [None] and other
    than a string of whitespace. *)
Definition filled (data : gmap string pyval) (field : string) : bool :=
  match data !! field with
  | None => false
  | Some PNone => false
  | Some (PStr s) => negb (blank s)
  | Some _ => true
  end.

(** What [validate_required_fields] raises about [field]. *)
Definition field_error (data : gmap string pyval) (field : string) : Exception :=
  YouGile (exceptions.ValidationError
             (PStr ("Field '" +:+ field
                    +:+ match data !! field with
                        | None => "' is required"
                        | Some _ => "' cannot be empty"
                        end))
             (Some field)).

(** The client [self] around another [AuthManager]. *)
Definition with_manager (self : YouGileClient.t) (am : AuthManager.t)
  : YouGileClient.t :=
  {| YouGileClient.auth_manager := am;
     YouGileClient.base_url := YouGileClient.base_url self;
     YouGileClient._client := YouGileClient._client self |}.

(** The sum of the delays of a trace. *)
Definition total_delay (tr : list Event) : Z := fold_right Z.add 0 (delays tr).

(** * Properties *)

(** ** Strings *)

Section Strings.

Lemma truthy_false (s : string) : truthy s = false <-> s = EmptyString.
Proof. destruct s; simpl; split; congruence. Qed.

Lemma truthy_true (s : string) : truthy s = true <-> s <> EmptyString.
Proof. destruct s; simpl; split; congruence. Qed.

Lemma blank_lstrip (s : string) : blank (lstrip s) = blank s.
Proof.
  induction s as [|c s IH]; simpl; [reflexivity|].
  destruct (isspace c) eqn:Hc; simpl; [exact IH|].
  now rewrite Hc.
Qed.

Lemma rstrip_empty (s : string) : rstrip s = EmptyString <-> blank s = true.
Proof.
  induction s as [|c s IH]; simpl; [tauto|].
  destruct (rstrip s) eqn:Hr.
  - destruct (isspace c); simpl.
    + split; [intros _; now apply IH|reflexivity].
    + split; discriminate.
  - split; [discriminate|].
    intros [_ Hb]%andb_prop. apply IH in Hb. discriminate.
Qed.

(** Trimming leaves nothing exactly when the string is whitespace only. *)
Lemma strip_empty (s : string) : strip s = EmptyString <-> blank s = true.
Proof. unfold strip. now rewrite rstrip_empty, blank_lstrip. Qed.

(** The test [not s or not s.strip()] of [set_credentials]. *)
Lemma rejected_iff (s : string) :
  negb (truthy s) || negb (truthy (strip s)) = true <-> strip s = EmptyString.
Proof.
  rewrite orb_true_iff, !negb_true_iff, !truthy_false.
  split; [intros [->|H]; [reflexivity|exact H]|auto].
Qed.

Lemma startswith_prefixed (p : string) :
  startswith ("/api-v2" +:+ p) "/api-v2" = true.
Proof. now destruct p. Qed.

End Strings.

(** ** The error classes *)

Section Errors.

Lemma details_or_empty_default (d : option (gmap string pyval)) :
  exceptions.details_or_empty d = default ∅ d.
Proof.
  destruct d as [d|]; simpl; [|reflexivity].
  now destruct (decide (d = ∅)) as [->|].
Qed.

Lemma super_init_status (c : exceptions.ErrorClass) (m : pyval) (code : Z) :
  exceptions.status_code (exceptions.super_init c m code) = Some code
  /\ exceptions.message (exceptions.super_init c m code) = m
  /\ exceptions.class_ (exceptions.super_init c m code) = c
  /\ exceptions.details (exceptions.super_init c m code) = ∅.
Proof. repeat split. Qed.

End Errors.

(** ** AuthManager *)

Section Credentials.

Import AuthManager.

Lemma set_credentials_rejects (self : t) (k c : string) :
  strip k = EmptyString \/ strip c = EmptyString ->
  raises (fst (set_credentials self k c)) = true
  /\ snd (set_credentials self k c) = self.
Proof.
  intros H. unfold set_credentials.
  destruct (negb (truthy k) || negb (truthy (strip k))) eqn:Hk; [now split|].
  destruct (negb (truthy c) || negb (truthy (strip c))) eqn:Hc; [now split|].
  exfalso. destruct H as [H|H]; apply rejected_iff in H; congruence.
Qed.

Lemma set_credentials_accepts (self : t) (k c : string) :
  strip k <> EmptyString -> strip c <> EmptyString ->
  set_credentials self k c
  = (Return tt, {| _api_key := Some (strip k); _company_id := Some (strip c) |}).
Proof.
  intros Hk Hc. unfold set_credentials.
  destruct (negb (truthy k) || negb (truthy (strip k))) eqn:Ek.
  { apply rejected_iff in Ek. contradiction. }
  destruct (negb (truthy c) || negb (truthy (strip c))) eqn:Ec.
  { apply rejected_iff in Ec. contradiction. }
  reflexivity.
Qed.

Lemma paired_step (self : t) (o : op) :
  paired self = true -> paired (step self o) = true.
Proof.
  intros Hp. destruct o as [k c|]; simpl; [|reflexivity].
  destruct (string_dec (strip k) EmptyString) as [Hk|Hk].
  { now rewrite (proj2 (set_credentials_rejects self k c (or_introl Hk))). }
  destruct (string_dec (strip c) EmptyString) as [Hc|Hc].
  { now rewrite (proj2 (set_credentials_rejects self k c (or_intror Hc))). }
  rewrite set_credentials_accepts by assumption. unfold paired. simpl.
  apply andb_true_intro. now split; apply truthy_true.
Qed.

Lemma paired_run (ops : list op) (self : t) :
  paired self = true -> paired (run self ops) = true.
Proof.
  revert self. induction ops as [|o ops IH]; intros self Hp; [exact Hp|].
  simpl. apply IH. now apply paired_step.
Qed.

Lemma paired_headers (self : t) :
  paired self = true ->
  raises (get_auth_headers self) = negb (is_authenticated self).
Proof.
  unfold paired, get_auth_headers, is_authenticated.
  destruct self as [[k|] [c|]]; simpl; try discriminate.
  - intros [Hk Hc]%andb_prop. now rewrite Hk, Hc.
  - reflexivity.
Qed.

End Credentials.

(** ** Traces *)

Section Traces.

Variable rq : HttpRequest.

Lemma sent_app (tr1 tr2 : list Event) :
  sent (tr1 ++ tr2) = (sent tr1 ++ sent tr2)%list.
Proof.
  induction tr1 as [|[a r|d] tr1 IH]; simpl; [reflexivity| |exact IH].
  now rewrite IH.
Qed.

Lemma sent_failed_attempts (start k : nat) :
  sent (failed_attempts rq start k) = repeat rq k.
Proof.
  revert start. induction k as [|k IH]; intros start; simpl; [reflexivity|].
  now rewrite IH.
Qed.

Lemma sent_schedule (n : nat) : sent (schedule rq n) = repeat rq n.
Proof.
  destruct n as [|k]; simpl; [reflexivity|].
  rewrite sent_app, sent_failed_attempts. simpl.
  now rewrite <- repeat_cons.
Qed.

Lemma attempts_schedule (n : nat) : attempts (schedule rq n) = n.
Proof. unfold attempts. now rewrite sent_schedule, repeat_length. Qed.

Lemma in_failed_attempts (start k i : nat) (r : HttpRequest) :
  In (EvRequest i r) (failed_attempts rq start k) ->
  r = rq /\ (start <= i < start + k)%nat.
Proof.
  revert start. induction k as [|k IH]; intros start; simpl; [tauto|].
  intros [H|[H|H]].
  - injection H as <- <-. split; [reflexivity|lia].
  - discriminate.
  - apply IH in H. split; [tauto|lia].
Qed.

(** A request event of a schedule is an attempt below its length. *)
Lemma in_schedule (n i : nat) (r : HttpRequest) :
  In (EvRequest i r) (schedule rq n) -> r = rq /\ (i < n)%nat.
Proof.
  destruct n as [|k]; simpl; [tauto|].
  intros [H|H]%in_app_or.
  - apply in_failed_attempts in H. split; [tauto|lia].
  - destruct H as [H|[]]. injection H as <- <-. split; [reflexivity|lia].
Qed.

Lemma delays_app (tr1 tr2 : list Event) :
  delays (tr1 ++ tr2) = (delays tr1 ++ delays tr2)%list.
Proof.
  induction tr1 as [|[a r|d] tr1 IH]; simpl; [reflexivity|exact IH|].
  now rewrite IH.
Qed.

Lemma delays_failed_attempts (start k : nat) :
  delays (failed_attempts rq start k)
  = map (fun i => 2 ^ Z.of_nat i) (seq start k).
Proof.
  revert start. induction k as [|k IH]; intros start; simpl; [reflexivity|].
  now rewrite IH.
Qed.

(** The delays of a schedule are 1, 2, 4, ..., one per attempt but the
    last. *)
Lemma delays_schedule (n : nat) :
  delays (schedule rq n) = map (fun i => 2 ^ Z.of_nat i) (seq 0 (n - 1)).
Proof.
  destruct n as [|k]; simpl; [reflexivity|].
  rewrite delays_app, delays_failed_attempts, Nat.sub_0_r. simpl.
  now rewrite app_nil_r.
Qed.

Lemma failed_attempts_in (start k i : nat) :
  (i < k)%nat -> In (EvRequest (start + i) rq) (failed_attempts rq start k).
Proof.
  revert start i. induction k as [|k IH]; intros start [|i] Hi; try lia.
  - left. now rewrite Nat.add_0_r.
  - right. right. rewrite <- Nat.add_succ_comm. apply IH. lia.
Qed.

Lemma schedule_in (n i : nat) :
  (i < n)%nat -> In (EvRequest i rq) (schedule rq n).
Proof.
  destruct n as [|k]; [lia|]. intros Hi. simpl. apply in_or_app.
  destruct (Nat.eq_dec i k) as [->|Hne]; [right; now left|left].
  apply (failed_attempts_in 0 k i). lia.
Qed.

(** Every delay of a schedule follows the attempt it backs off from. *)
Lemma schedule_backoff (n i : nat) :
  (S i < n)%nat ->
  exists before after,
    schedule rq n
    = (before ++ EvRequest i rq :: EvSleep (2 ^ Z.of_nat i)
              :: EvRequest (S i) rq :: after)%list
    /\ attempts before = i.
Proof.
  destruct n as [|k]; [lia|]. intros Hi. simpl.
  assert (G : forall k start i, (i < k)%nat ->
    exists before after,
      (failed_attempts rq start k ++ [EvRequest (start + k) rq]
       = before ++ EvRequest (start + i) rq
           :: EvSleep (2 ^ Z.of_nat (start + i))
           :: EvRequest (S (start + i)) rq :: after)%list
      /\ attempts before = i).
  { clear. induction k as [|k IH]; intros start i Hi; [lia|].
    destruct i as [|i].
    - exists [].
      destruct k as [|k].
      + exists []. simpl. rewrite !Nat.add_0_r, Nat.add_1_r. now split.
      + exists (EvSleep (2 ^ Z.of_nat (S start))
                  :: failed_attempts rq (S (S start)) k
                  ++ [EvRequest (start + S (S k)) rq])%list.
        simpl. rewrite !Nat.add_0_r. now split.
    - destruct (IH (S start) i ltac:(lia)) as (before & after & Heq & Hb).
      exists (EvRequest start rq :: EvSleep (2 ^ Z.of_nat start) :: before),
             after.
      split.
      + simpl. rewrite <- !Nat.add_succ_comm. simpl in Heq |- *.
        now rewrite Heq.
      + unfold attempts in *. simpl. now rewrite Hb. }
  apply (G k 0%nat i). lia.
Qed.

End Traces.

(** ** The response classification *)

Section Classification.

Import YouGileClient.

(** [_handle_response] raises nothing an [except] clause of [request]
    catches. *)
Lemma handle_response_raise (response : Response) (e : Exception) :
  _handle_response response = Raise e ->
  (exists y, e = YouGile y /\ exceptions.status_code y <> None)
  \/ (exists msg, e = AttributeError msg).
Proof.
  unfold _handle_response.
  destruct ((status_code response =? 200) || (status_code response =? 201)).
  { destruct (json response); discriminate. }
  destruct (match json response with Some body => body | None => _ end);
    try (intros [= <-]; right; eexists; reflexivity).
  repeat match goal with
         | |- context [if ?b then _ else _] => destruct b
         end;
    intros [= <-]; left; eexists; (split; [reflexivity|discriminate]).
Qed.

(** A 200 or 201 never raises. *)
Lemma handle_response_success (response : Response) :
  status_code response = 200 \/ status_code response = 201 ->
  _handle_response response
  = Return (match json response with
            | Some body => body
            | None => PDict (<["success" := PBool true]>
                               (<["data" := PStr (text response)]> ∅))
            end).
Proof.
  intros H. unfold _handle_response.
  replace ((status_code response =? 200) || (status_code response =? 201))
    with true by (symmetry; apply orb_true_iff; lia).
  now destruct (json response).
Qed.

(** Any status other than 200 and 201 whose payload is an object, decoded
    or synthesized, raises the error its code selects, with the payload's
    ["error"] entry, or ["HTTP <code>"] when it has none, as message. *)
Lemma handle_response_error (response : Response) (d : gmap string pyval) :
  status_code response <> 200 -> status_code response <> 201 ->
  error_payload response = PDict d ->
  _handle_response response
  = Raise (YouGile (classified (status_code response)
                      (default (PStr ("HTTP " +:+ str_int (status_code response)))
                               (d !! "error")) d)).
Proof.
  intros H200 H201 Hd. unfold _handle_response, classified.
  replace ((status_code response =? 200) || (status_code response =? 201))
    with false by (symmetry; apply orb_false_iff; lia).
  fold (error_payload response). rewrite Hd.
  repeat match goal with
         | |- context [if ?b then _ else _] => destruct b
         end; reflexivity.
Qed.

(** The attributes of a classified error: the four typed errors carry
    their own code, the generic one the response's code and payload. *)
Lemma classified_attributes (code : Z) (msg : pyval) (d : gmap string pyval) :
  exceptions.status_code (classified code msg d) = Some code
  /\ exceptions.message (classified code msg d) = msg
  /\ exceptions.class_ (classified code msg d)
     = (if code =? 401 then exceptions.AuthenticationError_
        else if code =? 403 then exceptions.AuthorizationError_
        else if code =? 404 then exceptions.NotFoundError_ None None
        else if code =? 429 then exceptions.RateLimitError_
        else exceptions.YouGileError_)
  /\ exceptions.details (classified code msg d)
     = (if (code =? 401) || (code =? 403) || (code =? 404) || (code =? 429)
        then ∅ else d).
Proof.
  unfold classified.
  destruct (code =? 401) eqn:E1; [apply Z.eqb_eq in E1; subst; now repeat split|].
  destruct (code =? 403) eqn:E2; [apply Z.eqb_eq in E2; subst; now repeat split|].
  destruct (code =? 404) eqn:E3; [apply Z.eqb_eq in E3; subst; now repeat split|].
  destruct (code =? 429) eqn:E4; [apply Z.eqb_eq in E4; subst; now repeat split|].
  simpl. repeat split.
  now destruct (decide (d = ∅)) as [->|].
Qed.

End Classification.

(** ** The retry loop *)

Section Loop.

Import YouGileClient.

Variable settings : Settings.t.
Variable transport : nat -> HttpRequest -> Result Response.
Variable rq : HttpRequest.

#[local] Abbreviation max_retries := (Settings.yougile_max_retries settings).
#[local] Abbreviation stops_at i := (stops max_retries (transport i rq) i).

Lemma stops_false (i : nat) :
  stops_at i = false ->
  retryable (transport i rq) = true /\ Z.of_nat i <> max_retries.
Proof.
  unfold stops. intros [H1 H2]%orb_false_elim.
  apply negb_false_iff in H1. apply Z.eqb_neq in H2. now split.
Qed.

(** An iteration that ends the loop: one request, no delay. *)
Lemma request_attempt_stops (i : nat) (tr : list Event) :
  stops_at i = true ->
  request_attempt settings transport rq i tr
  = (result_map Some (conclude (transport i rq)),
     (tr ++ [EvRequest i rq])%list).
Proof.
  intros Hs. unfold request_attempt, try_except, bind, client_request, lift, ret.
  destruct (transport i rq) as [response|e] eqn:Ho; simpl.
  - destruct (_handle_response response) as [body|e] eqn:Hr; [reflexivity|].
    destruct (handle_response_raise _ _ Hr) as [(y & -> & _)|(msg & ->)];
      reflexivity.
  - unfold stops in Hs. simpl in Hs.
    destruct e; simpl in Hs |- *; try reflexivity; now rewrite Hs.
Qed.

(** An iteration that goes round again: one request, then the delay. *)
Lemma request_attempt_retries (i : nat) (tr : list Event) :
  stops_at i = false ->
  request_attempt settings transport rq i tr
  = (Return None,
     (tr ++ [EvRequest i rq; EvSleep (2 ^ Z.of_nat i)])%list).
Proof.
  intros Hs. destruct (stops_false i Hs) as [Hr Hne].
  apply Z.eqb_neq in Hne.
  unfold request_attempt, try_except, bind, client_request, sleep, ret.
  destruct (transport i rq) as [response|e]; [discriminate|].
  destruct e; try discriminate; simpl; rewrite Hne; simpl;
    now rewrite <- app_assoc.
Qed.

(** The iterations [start], ..., [start + len - 1], the last of which is
    iteration [max_retries]: the loop ends at the first one that stops. *)
Lemma for_each_run (len start : nat) (tr : list Event) :
  Z.of_nat (start + len) = max_retries + 1 -> (0 < len)%nat ->
  exists k,
    (k < len)%nat
    /\ (forall i, (i < k)%nat -> stops_at (start + i) = false)
    /\ stops_at (start + k) = true
    /\ for_each (seq start len) (request_attempt settings transport rq) tr
       = (result_map Some (conclude (transport (start + k) rq)),
          (tr ++ failed_attempts rq start k
              ++ [EvRequest (start + k) rq])%list).
Proof.
  revert start tr. induction len as [|len IH]; intros start tr Hlen Hpos; [lia|].
  destruct (stops_at start) eqn:Hs.
  - exists 0%nat. rewrite Nat.add_0_r. repeat split; [lia|lia|exact Hs|].
    simpl. unfold bind. rewrite request_attempt_stops by exact Hs.
    now destruct (conclude (transport start rq)).
  - destruct (stops_false start Hs) as [_ Hne].
    destruct (IH (S start) (tr ++ [EvRequest start rq;
                                   EvSleep (2 ^ Z.of_nat start)])%list)
      as (k & Hk & Hbefore & Hstop & Hrun); [lia|lia|].
    exists (S k). rewrite <- !Nat.add_succ_comm. repeat split.
    + lia.
    + intros [|i] Hi; [now rewrite Nat.add_0_r|].
      rewrite <- Nat.add_succ_comm. apply Hbefore. lia.
    + exact Hstop.
    + simpl. unfold bind at 1. rewrite request_attempt_retries by exact Hs.
      rewrite Hrun. now rewrite <- app_assoc.
Qed.

(** With a non-negative retry count the loop ends inside its body, at the
    first attempt that stops. *)
Lemma retry_loop_run (tr : list Event) :
  0 <= max_retries ->
  exists k,
    Z.of_nat k <= max_retries
    /\ (forall i, (i < k)%nat -> stops_at i = false)
    /\ stops_at k = true
    /\ retry_loop settings transport rq tr
       = (result_map Some (conclude (transport k rq)),
          (tr ++ schedule rq (S k))%list).
Proof.
  intros Hmax. unfold retry_loop, range.
  destruct (for_each_run (Z.to_nat (max_retries + 1)) 0 tr)
    as (k & Hk & Hbefore & Hstop & Hrun); [lia|lia|].
  exists k. repeat split; [lia|exact Hbefore|exact Hstop|exact Hrun].
Qed.

(** With a negative retry count the range is empty. *)
Lemma retry_loop_skipped (tr : list Event) :
  max_retries < 0 -> retry_loop settings transport rq tr = (Return None, tr).
Proof.
  intros Hmax. unfold retry_loop, range.
  now replace (Z.to_nat (max_retries + 1)) with 0%nat by lia.
Qed.

End Loop.

(** ** request *)

Section Request.

Import YouGileClient.

Variable settings : Settings.t.
Variable transport : nat -> HttpRequest -> Result Response.

#[local] Abbreviation max_retries := (Settings.yougile_max_retries settings).

Lemma request_not_initialized (self : t) (method path : string)
    (json params : option (gmap string pyval)) (tr : list Event) :
  _client self = None ->
  request settings transport self method path json params tr
  = (Raise (RuntimeError
              "Client not initialized. Use 'async with' context manager."), tr).
Proof. intros H. unfold request. now rewrite H. Qed.

Lemma request_no_headers (self : t) (pool : AsyncClient) (method path : string)
    (json params : option (gmap string pyval)) (e : Exception)
    (tr : list Event) :
  _client self = Some pool ->
  select_headers (auth_manager self) path = Raise e ->
  request settings transport self method path json params tr = (Raise e, tr).
Proof.
  intros Hc Hh. unfold request, select_headers in *. rewrite Hc.
  unfold bind, lift, ret.
  destruct (startswith path "/auth/" || startswith path "/api-v2/auth/");
    [discriminate|].
  now rewrite Hh.
Qed.

(** Once the headers are selected, [request] is the loop followed by the
    statement after it. *)
Lemma request_with_headers (self : t) (pool : AsyncClient)
    (method path : string) (json params : option (gmap string pyval))
    (headers : gmap string string) (tr : list Event) :
  _client self = Some pool ->
  select_headers (auth_manager self) path = Return headers ->
  request settings transport self method path json params tr
  = match retry_loop settings transport
            (outgoing method path json params headers) tr with
    | (Return (Some body), tr') => (Return body, tr')
    | (Return None, tr') =>
        (Raise (YouGile (exceptions.YouGileError
                           (PStr "Max retries exceeded") None None)), tr')
    | (Raise e, tr') => (Raise e, tr')
    end.
Proof.
  intros Hc Hh. unfold request, select_headers in *. rewrite Hc.
  unfold bind at 1.
  assert (Hsel :
    (if startswith path "/auth/" || startswith path "/api-v2/auth/"
     then ret (AuthManager.get_basic_headers (auth_manager self))
     else lift (AuthManager.get_auth_headers (auth_manager self))) tr
    = (Return headers, tr)).
  { destruct (startswith path "/auth/" || startswith path "/api-v2/auth/");
      unfold ret, lift; congruence. }
  rewrite Hsel. unfold bind, outgoing, ret, raise.
  destruct (retry_loop _ _ _ tr) as [[[body|]|e] tr']; reflexivity.
Qed.

(** Every call of [request] goes one of the four ways. *)
Lemma request_cases (self : t) (method path : string)
    (json params : option (gmap string pyval)) :
  request_run settings transport self method path json params
    (request settings transport self method path json params []).
Proof.
  destruct (_client self) as [pool|] eqn:Hc.
  2: { rewrite request_not_initialized by exact Hc. now constructor. }
  destruct (select_headers (auth_manager self) path) as [headers|e] eqn:Hh.
  2: { rewrite (request_no_headers _ pool _ _ _ _ e) by assumption.
       now apply (run_no_headers _ _ _ _ _ _ _ pool). }
  rewrite (request_with_headers _ pool _ _ _ _ headers) by assumption.
  destruct (Z_lt_le_dec max_retries 0) as [Hneg|Hpos].
  - rewrite retry_loop_skipped by exact Hneg.
    now apply (run_no_iteration _ _ _ _ _ _ _ pool headers).
  - destruct (retry_loop_run settings transport
                (outgoing method path json params headers) [] Hpos)
      as (k & Hk & Hbefore & Hstop & ->).
    simpl app.
    replace (match result_map Some _ with
             | Return (Some body) => _ | Return None => _ | Raise e => _ end)
      with (conclude (transport k (outgoing method path json params headers)),
            schedule (outgoing method path json params headers) (S k)).
    + now apply (run_stopped _ _ _ _ _ _ _ pool headers k).
    + now destruct (conclude _).
Qed.

End Request.

Section Runs.

Import YouGileClient.

Variable settings : Settings.t.
Variable transport : nat -> HttpRequest -> Result Response.
Variable self : t.
Variables method path : string.
Variables json params : option (gmap string pyval).

#[local] Abbreviation max_retries := (Settings.yougile_max_retries settings).
#[local] Abbreviation the_run :=
  (request settings transport self method path json params []).

Lemma retryable_inv (o : Result Response) :
  retryable o = true ->
  exists msg, o = Raise (TimeoutException msg) \/ o = Raise (NetworkError msg).
Proof.
  destruct o as [response|[]]; try discriminate; intros _; eexists; eauto.
Qed.

(** The attempt that receives a response is the last one, and the response
    decides the result. *)
Lemma response_concludes (i : nat) (rq : HttpRequest) (response : Response) :
  In (EvRequest i rq) (snd the_run) ->
  transport i rq = Return response ->
  fst the_run = _handle_response response
  /\ snd the_run = schedule rq (S i).
Proof.
  pose proof (request_cases settings transport self method path json params)
    as Hrun.
  destruct the_run as [res tr]. simpl.
  inversion Hrun as [| | |pool headers k Hc Hh Hk Hbefore Hstop]; subst;
    try (intros []).
  intros Hin Ho. apply (in_schedule _ (S k)) in Hin as [-> Hi].
  assert (i = k) as ->.
  { destruct (Nat.eq_dec i k) as [|Hne]; [assumption|].
    destruct (stops_false settings transport _ i (Hbefore i ltac:(lia)))
      as [Hr _].
    rewrite Ho in Hr. discriminate. }
  rewrite Ho. now split.
Qed.

(** An attempt after the first follows a transport failure of the attempt
    before it, which was not the last iteration. *)
Lemma retry_follows_failure (i : nat) (rq : HttpRequest) :
  In (EvRequest (S i) rq) (snd the_run) ->
  retryable (transport i rq) = true /\ Z.of_nat i < max_retries.
Proof.
  pose proof (request_cases settings transport self method path json params)
    as Hrun.
  destruct the_run as [res tr]. simpl.
  inversion Hrun as [| | |pool headers k Hc Hh Hk Hbefore Hstop]; subst;
    try (intros []).
  intros Hin. apply (in_schedule _ (S k)) in Hin as [-> Hi].
  destruct (stops_false settings transport _ i (Hbefore i ltac:(lia)))
    as [Hr Hne].
  split; [exact Hr|lia].
Qed.

(** The trace of a call is the schedule of its attempts, all of which carry
    one request, and there are at most [range] many. *)
Lemma run_schedule :
  exists rq,
    snd the_run = schedule rq (attempts (snd the_run))
    /\ (attempts (snd the_run) <= Z.to_nat (max_retries + 1))%nat
    /\ (forall i, (i < attempts (snd the_run))%nat ->
          In (EvRequest i rq) (snd the_run))
    /\ (attempts (snd the_run) = Z.to_nat (max_retries + 1) ->
        0 <= max_retries ->
        fst the_run = conclude (transport (Z.to_nat max_retries) rq)).
Proof.
  pose proof (request_cases settings transport self method path json params)
    as Hrun.
  destruct the_run as [res tr]. cbn [fst snd].
  inversion Hrun as [| | |pool headers k Hc Hh Hk Hbefore Hstop]; subst.
  1-3: exists (outgoing method path json params ∅); unfold attempts; simpl;
       repeat split; intros; lia.
  exists (outgoing method path json params headers).
  change (failed_attempts ?r 0 k ++ [EvRequest k ?r])%list
    with (schedule r (S k)).
  rewrite attempts_schedule. repeat split.
  - lia.
  - intros i Hi. now apply schedule_in.
  - intros Hlast Hpos. f_equal. f_equal. lia.
Qed.

End Runs.

(** ** The scenarios of the specification *)

Section Scenarios.

Import YouGileClient.

#[local] Abbreviation observed run := (fst run, attempts (snd run), delays (snd run)).

(** Credential unset, [get("/users")]: the authentication error, nothing
    sent. *)
Example scenario_no_credential :
  get Settings.default (Sample.always Sample.ok_body)
    (Sample.client AuthManager.auth_manager) "/users" None []
  = (Raise (YouGile (exceptions.AuthenticationError
                       (PStr "No API key configured"))), []).
Proof. reflexivity. Qed.

(** Credential set, a 404 with an ["error"] entry. *)
Example scenario_task_not_found :
  observed (get Settings.default (Sample.always Sample.task_not_found)
              (Sample.client Sample.manager) "/tasks/42" None [])
  = (Raise (YouGile (exceptions.NotFoundError (PStr "task not found") None None)),
     1%nat, []).
Proof. vm_compute. reflexivity. Qed.

(** Two timeouts, then a success: the body, after delays of 1 and 2. *)
Example scenario_third_time_lucky :
  observed (request Settings.default (Sample.third_time Sample.ok_body)
              (Sample.client Sample.manager) "GET" "/users" None None [])
  = (Return (PList [PInt 7; PInt 8]), 3%nat, [1; 2]).
Proof. vm_compute. reflexivity. Qed.

(** Four timeouts: "Request timeout" after the fourth attempt. *)
Example scenario_all_timeouts :
  observed (request Settings.default Sample.always_timeout
              (Sample.client Sample.manager) "GET" "/users" None None [])
  = (Raise (YouGile (exceptions.YouGileError (PStr "Request timeout") None None)),
     4%nat, [1; 2; 4]).
Proof. vm_compute. reflexivity. Qed.

(** An undecodable error body becomes the message and the details. *)
Example scenario_bad_gateway :
  fst (request Settings.default
         (Sample.always {| status_code := 502; text := "Bad Gateway";
                           json := None |})
         (Sample.client Sample.manager) "GET" "/users" None None [])
  = Raise (YouGile (exceptions.YouGileError (PStr "Bad Gateway") (Some 502)
                      (Some {[ "error" := PStr "Bad Gateway" ]}))).
Proof. vm_compute. reflexivity. Qed.

End Scenarios.

(** * The claims *)

Section Layout.

Import YouGileClient.

Variable settings : Settings.t.
Variable transport : nat -> HttpRequest -> Result Response.
Variable self : t.
Variables method path : string.
Variables json_body params : option (gmap string pyval).

#[local] Abbreviation max_retries := (Settings.yougile_max_retries settings).
#[local] Abbreviation the_run :=
  (request settings transport self method path json_body params []).

(** The layout of a call, in both directions: which attempts exist, which
    outcome makes the next one exist, and what the last iteration gives. *)
Lemma run_layout :
  exists rq,
    snd the_run = schedule rq (attempts (snd the_run))
    /\ (attempts (snd the_run) <= Z.to_nat (max_retries + 1))%nat
    /\ (forall i, (S i < attempts (snd the_run))%nat ->
          retryable (transport i rq) = true /\ Z.of_nat i < max_retries)
    /\ (forall i, (i < attempts (snd the_run))%nat ->
          retryable (transport i rq) = true -> Z.of_nat i < max_retries ->
          (S i < attempts (snd the_run))%nat)
    /\ (forall i, (i < attempts (snd the_run))%nat ->
          Z.of_nat i = max_retries ->
          fst the_run = conclude (transport i rq)
          /\ attempts (snd the_run) = S i).
Proof.
  pose proof (request_cases settings transport self method path json_body
                params) as Hrun.
  destruct the_run as [res tr]. cbn [fst snd].
  inversion Hrun as [| | |pool headers k Hc Hh Hk Hbefore Hstop]; subst.
  1-3: exists (outgoing method path json_body params ∅); unfold attempts;
       simpl; repeat split; intros; lia.
  exists (outgoing method path json_body params headers).
  change (failed_attempts ?r 0 k ++ [EvRequest k ?r])%list
    with (schedule r (S k)).
  rewrite attempts_schedule.
  split; [reflexivity|]. split; [lia|]. split; [|split].
  - intros i Hi.
    destruct (stops_false settings transport _ i (Hbefore i ltac:(lia)))
      as [Hr Hne].
    split; [exact Hr|lia].
  - intros i Hi Hr Hlt.
    destruct (Nat.eq_dec i k) as [->|Hne]; [|lia].
    unfold stops in Hstop. rewrite Hr in Hstop. simpl in Hstop.
    apply Z.eqb_eq in Hstop. lia.
  - intros i Hi Hlast.
    assert (i = k) as ->; [|now split].
    destruct (Nat.eq_dec i k) as [|Hne]; [assumption|].
    destruct (stops_false settings transport _ i (Hbefore i ltac:(lia)))
      as [_ Hneq].
    contradiction.
Qed.

End Layout.

(** C1, as the code has it. A call of [request] makes at most
    [max (0, max_retries + 1)] attempts, which is [max_retries + 1] whenever
    [max_retries >= -1] (3 by default, hence 4 attempts), all with one
    request, laid out as the backoff schedule. A timeout or a network error
    on an attempt [i < max_retries], and nothing else, leads to attempt
    [i + 1]: if attempt [i] is made and fails so, attempt [i + 1] is made, and
    if attempt [i + 1] is made, attempt [i] failed so and [i < max_retries];
    the delay [2 ^ i] stands between the two, so the delays slept are 1, 2, 4,
    ... in this order. When attempt [max_retries] is made and fails in the
    same way, it is the last attempt and [request] raises the base error
    without a status code, with message "Request timeout" or
    "Network error: <detail>", an error no HTTP response is classified as. *)
Theorem request_retry_schedule (settings : Settings.t)
    (transport : nat -> HttpRequest -> Result Response)
    (self : YouGileClient.t) (method path : string)
    (json params : option (gmap string pyval)) :
  let max_retries := Settings.yougile_max_retries settings in
  let res :=
    fst (YouGileClient.request settings transport self method path json params []) in
  let tr :=
    snd (YouGileClient.request settings transport self method path json params []) in
  exists rq,
    Z.of_nat (attempts tr) <= Z.max 0 (max_retries + 1)
    /\ (-1 <= max_retries -> Z.of_nat (attempts tr) <= max_retries + 1)
    /\ Settings.yougile_max_retries Settings.default + 1 = 4
    /\ tr = schedule rq (attempts tr)
    /\ delays tr = map (fun i => 2 ^ Z.of_nat i) (seq 0 (attempts tr - 1))
    /\ (forall i msg,
          (i < attempts tr)%nat ->
          Z.of_nat i < max_retries ->
          transport i rq = Raise (TimeoutException msg)
          \/ transport i rq = Raise (NetworkError msg) ->
          (S i < attempts tr)%nat
          /\ exists before after,
               tr = (before ++ EvRequest i rq :: EvSleep (2 ^ Z.of_nat i)
                            :: EvRequest (S i) rq :: after)%list
               /\ attempts before = i)
    /\ (forall i, (S i < attempts tr)%nat ->
          (exists msg, transport i rq = Raise (TimeoutException msg)
                       \/ transport i rq = Raise (NetworkError msg))
          /\ Z.of_nat i < max_retries
          /\ exists before after,
               tr = (before ++ EvRequest i rq :: EvSleep (2 ^ Z.of_nat i)
                            :: EvRequest (S i) rq :: after)%list
               /\ attempts before = i)
    /\ (forall i msg,
          (i < attempts tr)%nat -> Z.of_nat i = max_retries ->
          transport i rq = Raise (TimeoutException msg) ->
          attempts tr = S i
          /\ res = Raise (YouGile (exceptions.YouGileError
                                     (PStr "Request timeout") None None)))
    /\ (forall i msg,
          (i < attempts tr)%nat -> Z.of_nat i = max_retries ->
          transport i rq = Raise (NetworkError msg) ->
          attempts tr = S i
          /\ res = Raise (YouGile (exceptions.YouGileError
                                     (PStr ("Network error: " +:+ msg))
                                     None None)))
    /\ (forall response m,
          YouGileClient._handle_response response
          <> Raise (YouGile (exceptions.YouGileError m None None))).
Proof.
  intros max_retries res tr. subst max_retries res tr.
  destruct (run_layout settings transport self method path json params)
    as (rq & Hshape & Hbound & Hnec & Hsuf & Hlast).
  assert (Hadj : forall i,
            (S i < attempts
                     (snd (YouGileClient.request settings transport self method
                             path json params [])))%nat ->
            exists before after,
              snd (YouGileClient.request settings transport self method path
                     json params [])
              = (before ++ EvRequest i rq :: EvSleep (2 ^ Z.of_nat i)
                        :: EvRequest (S i) rq :: after)%list
              /\ attempts before = i).
  { intros i Hi.
    destruct (schedule_backoff rq _ i Hi) as (before & after & Heq & Hb).
    exists before, after. split; [|exact Hb].
    etransitivity; [exact Hshape|exact Heq]. }
  exists rq.
  split; [lia|]. split; [lia|]. split; [reflexivity|].
  split; [exact Hshape|].
  split; [rewrite Hshape at 1; apply delays_schedule|].
  split; [|split; [|split; [|split]]].
  - intros i msg Hi Hlt Ho.
    assert (Hnext : (S i < attempts
                               (snd (YouGileClient.request settings transport
                                       self method path json params [])))%nat).
    { apply Hsuf; [exact Hi| |exact Hlt]. now destruct Ho as [-> | ->]. }
    split; [exact Hnext|now apply Hadj].
  - intros i Hi. destruct (Hnec i Hi) as [Hr Hlt].
    split; [now apply retryable_inv|]. split; [exact Hlt|now apply Hadj].
  - intros i msg Hi Hmax Ho. destruct (Hlast i Hi Hmax) as [Hres Hn].
    split; [exact Hn|]. now rewrite Hres, Ho.
  - intros i msg Hi Hmax Ho. destruct (Hlast i Hi Hmax) as [Hres Hn].
    split; [exact Hn|]. now rewrite Hres, Ho.
  - intros response m Hr.
    destruct (handle_response_raise _ _ Hr) as [(y & [= <-] & Hy)|(msg & [=])].
    now apply Hy.
Qed.

(** C1, an instance: the default settings, a pool whose first answer is a
    network error; the second attempt is made, after a delay of 1. *)
Lemma request_retry_schedule_witness :
  exists rq,
    (1 < attempts (snd (YouGileClient.request Settings.default
                          (fun _ _ => Raise (NetworkError "unreachable"))
                          (Sample.client Sample.manager)
                          "GET" "/users" None None [])))%nat
    /\ exists before after,
         snd (YouGileClient.request Settings.default
                (fun _ _ => Raise (NetworkError "unreachable"))
                (Sample.client Sample.manager) "GET" "/users" None None [])
         = (before ++ EvRequest 0 rq :: EvSleep (2 ^ Z.of_nat 0)
                   :: EvRequest 1 rq :: after)%list
         /\ attempts before = 0%nat.
Proof.
  destruct (request_retry_schedule Settings.default
              (fun _ _ => Raise (NetworkError "unreachable"))
              (Sample.client Sample.manager) "GET" "/users" None None)
    as (rq & _ & _ & _ & _ & _ & Hsuf & _).
  exists rq.
  apply (Hsuf 0%nat "unreachable").
  - vm_compute. lia.
  - simpl. lia.
  - right. reflexivity.
Defined.

(** C1 as stated fails on its bound: with [max_retries = -2], a value the
    settings accept, no attempt is made, and 0 is not at most
    [max_retries + 1 = -1]. *)
Lemma no_attempt_exceeds_negative_bound :
  attempts (snd (YouGileClient.request (Sample.with_retries (-2))
                   Sample.always_timeout (Sample.client Sample.manager)
                   "GET" "/users" None None []))
  = 0%nat
  /\ ~ (Z.of_nat
          (attempts (snd (YouGileClient.request (Sample.with_retries (-2))
                            Sample.always_timeout
                            (Sample.client Sample.manager)
                            "GET" "/users" None None [])))
        <= Settings.yougile_max_retries (Sample.with_retries (-2)) + 1).
Proof. split; [reflexivity|]. vm_compute. intros H. now apply H. Qed.

(** C3. Whatever its status, a response received on attempt [i] ends the
    call: [request] answers what [_handle_response] makes of it (the decoded
    body or the classified error), attempt [i] is the last event of the trace
    and no attempt has a higher number. An attempt [i + 1] is made only after
    attempt [i] raised a timeout or a network error. *)
Theorem response_never_retried (settings : Settings.t)
    (transport : nat -> HttpRequest -> Result Response)
    (self : YouGileClient.t) (method path : string)
    (json params : option (gmap string pyval)) :
  let res :=
    fst (YouGileClient.request settings transport self method path json params []) in
  let tr :=
    snd (YouGileClient.request settings transport self method path json params []) in
  (forall i rq response,
      In (EvRequest i rq) tr ->
      transport i rq = Return response ->
      res = YouGileClient._handle_response response
      /\ attempts tr = S i
      /\ (exists before, tr = (before ++ [EvRequest i rq])%list)
      /\ (forall j rq', In (EvRequest j rq') tr -> (j <= i)%nat))
  /\ (forall i rq,
        In (EvRequest (S i) rq) tr ->
        exists msg, transport i rq = Raise (TimeoutException msg)
                    \/ transport i rq = Raise (NetworkError msg)).
Proof.
  intros res tr. subst res tr. split.
  - intros i rq response Hin Ho.
    destruct (response_concludes settings transport self method path json
                params i rq response Hin Ho) as [Hres Htr].
    split; [exact Hres|]. rewrite Htr.
    split; [apply attempts_schedule|].
    split; [now exists (failed_attempts rq 0 i)|].
    intros j rq' Hj. apply in_schedule in Hj. lia.
  - intros i rq Hin. apply retryable_inv.
    now apply (retry_follows_failure settings transport self method path json
                 params i rq).
Qed.

(** C3, an instance: a 500 on the first attempt, default settings. *)
Lemma response_never_retried_witness :
  attempts (snd (YouGileClient.request Settings.default
                   (Sample.always {| status_code := 500; text := "oops";
                                     json := None |})
                   (Sample.client Sample.manager) "GET" "/users" None None []))
  = 1%nat.
Proof.
  refine (proj1 (proj2 (proj1 (response_never_retried Settings.default
            (Sample.always {| status_code := 500; text := "oops"; json := None |})
            (Sample.client Sample.manager) "GET" "/users" None None)
            0%nat
            (outgoing "GET" "/users" None None
               (<["Authorization" := "Bearer key-1"]>
                  (<["Content-Type" := "application/json"]>
                     (<["Accept" := "application/json"]> ∅))))
            {| status_code := 500; text := "oops"; json := None |} _ _))).
  - vm_compute. left. reflexivity.
  - reflexivity.
Defined.

(** C4. A response with status 200 or 201 makes [request] return: the body
    as [response.json()] decoded it, untouched, or, when the body does not
    decode, the dictionary with ["success"] true and ["data"] the raw text. *)
Theorem success_body_returned (settings : Settings.t)
    (transport : nat -> HttpRequest -> Result Response)
    (self : YouGileClient.t) (method path : string)
    (json_body params : option (gmap string pyval))
    (i : nat) (rq : HttpRequest) (response : Response) :
  In (EvRequest i rq)
     (snd (YouGileClient.request settings transport self method path json_body params [])) ->
  transport i rq = Return response ->
  status_code response = 200 \/ status_code response = 201 ->
  YouGileClient._handle_response response
  = Return (match json response with
            | Some body => body
            | None => PDict {[ "success" := PBool true;
                               "data" := PStr (text response) ]}
            end)
  /\ fst (YouGileClient.request settings transport self method path json_body params [])
     = Return (match json response with
               | Some body => body
               | None => PDict {[ "success" := PBool true;
                                  "data" := PStr (text response) ]}
               end).
Proof.
  intros Hin Ho Hcode.
  destruct (response_concludes settings transport self method path json_body
              params i rq response Hin Ho) as [Hres _].
  rewrite Hres. split; now apply handle_response_success.
Qed.

(** C4, an instance: two timeouts, then a 200 whose body decodes. *)
Lemma success_body_returned_witness :
  fst (YouGileClient.request Settings.default (Sample.third_time Sample.ok_body)
         (Sample.client Sample.manager) "GET" "/users" None None [])
  = Return (PList [PInt 7; PInt 8]).
Proof.
  refine (proj2 (success_body_returned Settings.default
            (Sample.third_time Sample.ok_body)
            (Sample.client Sample.manager) "GET" "/users" None None
            2%nat
            (outgoing "GET" "/users" None None
               (<["Authorization" := "Bearer key-1"]>
                  (<["Content-Type" := "application/json"]>
                     (<["Accept" := "application/json"]> ∅))))
            Sample.ok_body _ _ _)).
  - vm_compute. right. right. right. right. left. reflexivity.
  - reflexivity.
  - left. reflexivity.
Defined.

(** C2, where the code departs from it: an error response whose body decodes
    to something other than an object (here a 500 with the JSON array [[]])
    is not classified. [error_data.get] raises [AttributeError], which no
    [except] clause of [request] catches, so that is what the caller gets in
    place of the generic error with status code 500. *)
Theorem error_body_not_an_object :
  YouGileClient._handle_response
    {| status_code := 500; text := "[]"; json := Some (PList []) |}
  = Raise (AttributeError "'list' object has no attribute 'get'")
  /\ fst (YouGileClient.request Settings.default
            (Sample.always {| status_code := 500; text := "[]";
                              json := Some (PList []) |})
            (Sample.client Sample.manager) "GET" "/tasks" None None [])
     = Raise (AttributeError "'list' object has no attribute 'get'")
  /\ (forall e,
        YouGileClient._handle_response
          {| status_code := 500; text := "[]"; json := Some (PList []) |}
        <> Raise (YouGile e)).
Proof.
  split; [reflexivity|]. split; [vm_compute; reflexivity|].
  intros e. discriminate.
Qed.

(** X23. The classification of an error response whose body is a JSON
    object or does not decode: the four typed errors with their status code,
    the generic error with the response's code and payload otherwise, and as
    message the payload's ["error"] entry or "HTTP <code>". *)
Lemma error_response_classified (settings : Settings.t)
    (transport : nat -> HttpRequest -> Result Response)
    (self : YouGileClient.t) (method path : string)
    (json_body params : option (gmap string pyval))
    (i : nat) (rq : HttpRequest) (response : Response)
    (d : gmap string pyval) :
  In (EvRequest i rq)
     (snd (YouGileClient.request settings transport self method path json_body
             params [])) ->
  transport i rq = Return response ->
  status_code response <> 200 -> status_code response <> 201 ->
  error_payload response = PDict d ->
  exists e,
    fst (YouGileClient.request settings transport self method path json_body
           params [])
    = Raise (YouGile e)
    /\ exceptions.status_code e = Some (status_code response)
    /\ exceptions.message e
       = default (PStr ("HTTP " +:+ str_int (status_code response)))
                 (d !! "error")
    /\ exceptions.class_ e
       = (if status_code response =? 401 then exceptions.AuthenticationError_
          else if status_code response =? 403 then exceptions.AuthorizationError_
          else if status_code response =? 404
               then exceptions.NotFoundError_ None None
          else if status_code response =? 429 then exceptions.RateLimitError_
          else exceptions.YouGileError_)
    /\ exceptions.details e
       = (if (status_code response =? 401) || (status_code response =? 403)
             || (status_code response =? 404) || (status_code response =? 429)
          then ∅ else d).
Proof.
  intros Hin Ho H200 H201 Hd.
  destruct (response_concludes settings transport self method path json_body
              params i rq response Hin Ho) as [Hres _].
  rewrite Hres, (handle_response_error response d H200 H201 Hd).
  eexists. split; [reflexivity|]. apply classified_attributes.
Qed.

(** C5. On an initialized client: [get_basic_headers] is the constant pair
    of JSON headers; on a path that starts with "/auth/" or "/api-v2/auth/"
    every request sent carries exactly those headers, whatever the credential;
    on any other path, with no token stored ([None], or the empty string, which
    Python also counts as false) [get_auth_headers] raises
    [AuthenticationError] and [request] raises it with an empty trace, and
    with a token stored [get_auth_headers] returns the bearer header and the
    two JSON headers, which every request sent carries. *)
Theorem header_selection (settings : Settings.t)
    (transport : nat -> HttpRequest -> Result Response)
    (self : YouGileClient.t) (pool : YouGileClient.AsyncClient)
    (method path : string) (json_body params : option (gmap string pyval)) :
  YouGileClient._client self = Some pool ->
  let am := YouGileClient.auth_manager self in
  let run :=
    YouGileClient.request settings transport self method path json_body params [] in
  let basic : gmap string string :=
    {[ "Content-Type" := "application/json"; "Accept" := "application/json" ]} in
  AuthManager.get_basic_headers am = basic
  /\ (startswith path "/auth/" || startswith path "/api-v2/auth/" = true ->
      Forall (fun rq => rq = outgoing method path json_body params basic)
             (sent (snd run))
      /\ (0 <= Settings.yougile_max_retries settings ->
          In (EvRequest 0 (outgoing method path json_body params basic))
             (snd run)))
  /\ (startswith path "/auth/" || startswith path "/api-v2/auth/" = false ->
      truthy_opt (AuthManager._api_key am) = false ->
      AuthManager.get_auth_headers am
      = Raise (YouGile (exceptions.AuthenticationError
                          (PStr "No API key configured")))
      /\ exceptions.status_code (exceptions.AuthenticationError
                                   (PStr "No API key configured")) = Some 401
      /\ run = (Raise (YouGile (exceptions.AuthenticationError
                                  (PStr "No API key configured"))), []))
  /\ (startswith path "/auth/" || startswith path "/api-v2/auth/" = false ->
      forall token,
        AuthManager._api_key am = Some token -> token <> EmptyString ->
        let bearer : gmap string string :=
          {[ "Authorization" := "Bearer " +:+ token;
             "Content-Type" := "application/json";
             "Accept" := "application/json" ]} in
        AuthManager.get_auth_headers am = Return bearer
        /\ Forall (fun rq => rq = outgoing method path json_body params bearer)
                  (sent (snd run))
        /\ (0 <= Settings.yougile_max_retries settings ->
            In (EvRequest 0 (outgoing method path json_body params bearer))
               (snd run))).
Proof.
  intros Hc am run basic.
  assert (Hsent : forall headers,
            select_headers am path = Return headers ->
            Forall (fun rq => rq = outgoing method path json_body params headers)
                   (sent (snd run))
            /\ (0 <= Settings.yougile_max_retries settings ->
                In (EvRequest 0 (outgoing method path json_body params headers))
                   (snd run))).
  { intros headers Hh.
    pose proof (request_cases settings transport self method path json_body
                  params) as Hrun.
    fold run in Hrun. destruct run as [res tr]. cbn [snd].
    inversion Hrun as [Hn|p e Hp He|p h Hp Hh' Hneg
                       |p h k Hp Hh' Hk Hbefore Hstop]; subst.
    - congruence.
    - fold am in He. congruence.
    - split; [constructor|lia].
    - fold am in Hh'. assert (h = headers) as -> by congruence.
      change (failed_attempts ?r 0 k ++ [EvRequest k ?r])%list
        with (schedule r (S k)).
      split.
      + rewrite sent_schedule. apply Forall_forall.
        intros rq Hin%list_elem_of_In. now apply repeat_spec in Hin.
      + intros _. apply schedule_in. lia. }
  split; [reflexivity|]. split; [|split].
  - intros Hp. apply Hsent. unfold select_headers. now rewrite Hp.
  - intros Hp Hk.
    assert (Hraise : AuthManager.get_auth_headers am
                     = Raise (YouGile (exceptions.AuthenticationError
                                         (PStr "No API key configured")))).
    { unfold AuthManager.get_auth_headers. now rewrite Hk. }
    split; [exact Hraise|]. split; [reflexivity|].
    apply (request_no_headers settings transport self pool); [exact Hc|].
    unfold select_headers. fold am. now rewrite Hp.
  - intros Hp token Hk Hne bearer.
    assert (Hret : AuthManager.get_auth_headers am = Return bearer).
    { unfold AuthManager.get_auth_headers. rewrite Hk. simpl.
      apply truthy_true in Hne. now rewrite Hne. }
    split; [exact Hret|]. apply Hsent.
    unfold select_headers. now rewrite Hp.
Qed.

(** C5, an instance: no credential, a path outside the auth family. *)
Lemma header_selection_witness :
  YouGileClient.request Settings.default Sample.always_timeout
    (Sample.client (AuthManager.__init__ None None)) "GET" "/users" None None []
  = (Raise (YouGile (exceptions.AuthenticationError
                       (PStr "No API key configured"))), []).
Proof.
  refine (proj2 (proj2 (proj1 (proj2 (proj2
            (header_selection Settings.default Sample.always_timeout
               (Sample.client (AuthManager.__init__ None None)) Sample.pool
               "GET" "/users" None None _))) _ _))).
  - reflexivity.
  - reflexivity.
  - reflexivity.
Defined.

(** C6. [set_credentials] raises exactly when trimming leaves one of its
    arguments empty, that is when one of them is empty or whitespace only; it
    then raises a [ValidationError] and the manager is the one it was given.
    Otherwise it returns and the manager holds the two trimmed values. A call
    thus ends with both fields replaced or with none: there is no exit on
    which only one of them has changed. *)
Theorem set_credentials_all_or_nothing (self : AuthManager.t)
    (api_key company_id : string) :
  let res := fst (AuthManager.set_credentials self api_key company_id) in
  let self' := snd (AuthManager.set_credentials self api_key company_id) in
  (raises res = true
   <-> strip api_key = EmptyString \/ strip company_id = EmptyString)
  /\ (strip api_key = EmptyString <-> blank api_key = true)
  /\ (strip company_id = EmptyString <-> blank company_id = true)
  /\ (raises res = true ->
      self' = self
      /\ exists msg,
           res = Raise (YouGile (exceptions.ValidationError (PStr msg) None))
           /\ exceptions.status_code
                (exceptions.ValidationError (PStr msg) None) = Some 400)
  /\ (raises res = false ->
      res = Return tt
      /\ self' = {| AuthManager._api_key := Some (strip api_key);
                    AuthManager._company_id := Some (strip company_id) |}).
Proof.
  intros res self'. subst res self'.
  split; [|split; [apply strip_empty|split; [apply strip_empty|]]].
  - split.
    + intros Hr.
      destruct (string_dec (strip api_key) EmptyString) as [|Hk]; [now left|].
      destruct (string_dec (strip company_id) EmptyString) as [|Hc];
        [now right|].
      rewrite set_credentials_accepts in Hr by assumption. discriminate.
    + intros H. now apply set_credentials_rejects.
  - split.
    + intros Hr. unfold AuthManager.set_credentials in *.
      destruct (negb (truthy api_key) || negb (truthy (strip api_key))).
      { split; [reflexivity|]. eexists. split; reflexivity. }
      destruct (negb (truthy company_id) || negb (truthy (strip company_id))).
      { split; [reflexivity|]. eexists. split; reflexivity. }
      discriminate.
    + intros Hr.
      destruct (string_dec (strip api_key) EmptyString) as [Hk|Hk].
      { rewrite (proj1 (set_credentials_rejects self api_key company_id
                          (or_introl Hk))) in Hr. discriminate. }
      destruct (string_dec (strip company_id) EmptyString) as [Hc|Hc].
      { rewrite (proj1 (set_credentials_rejects self api_key company_id
                          (or_intror Hc))) in Hr. discriminate. }
      now rewrite set_credentials_accepts by assumption.
Qed.

(** C6, two instances: a blank company id leaves the stored pair alone; two
    padded values replace it by their trimmed forms. *)
Lemma set_credentials_all_or_nothing_witness :
  snd (AuthManager.set_credentials Sample.manager " key-2 " "   ")
  = Sample.manager
  /\ snd (AuthManager.set_credentials Sample.manager " key-2 " "company-2 ")
     = {| AuthManager._api_key := Some "key-2";
          AuthManager._company_id := Some "company-2" |}.
Proof.
  split.
  - refine (proj1 (proj1 (proj2 (proj2 (proj2
              (set_credentials_all_or_nothing Sample.manager " key-2 " "   "))))
              _)).
    reflexivity.
  - refine (proj2 (proj2 (proj2 (proj2 (proj2
              (set_credentials_all_or_nothing Sample.manager " key-2 "
                 "company-2 "))))
              _)).
    reflexivity.
Defined.

(** C7, as the code has it. With [max_retries >= 0] the [for] statement of
    [request] never runs to completion: an iteration that reaches its end
    without returning or raising is one whose attempt failed with a timeout or
    a network error before the last iteration, so another iteration follows,
    and the loop as a whole returns or raises. With [max_retries < 0] the
    range is empty and control goes straight to the statement after the
    loop. *)
Theorem fallback_unreachable_nonneg (settings : Settings.t)
    (transport : nat -> HttpRequest -> Result Response)
    (rq : HttpRequest) (tr : list Event) :
  (forall attempt,
      fst (YouGileClient.request_attempt settings transport rq attempt tr)
      = Return None ->
      retryable (transport attempt rq) = true
      /\ Z.of_nat attempt <> Settings.yougile_max_retries settings)
  /\ (0 <= Settings.yougile_max_retries settings ->
      fst (YouGileClient.retry_loop settings transport rq tr) <> Return None)
  /\ (Settings.yougile_max_retries settings < 0 ->
      YouGileClient.retry_loop settings transport rq tr = (Return None, tr)).
Proof.
  split; [|split].
  - intros attempt Hnone.
    destruct (stops (Settings.yougile_max_retries settings)
                    (transport attempt rq) attempt) eqn:Hs.
    + rewrite request_attempt_stops in Hnone by exact Hs. simpl in Hnone.
      destruct (conclude (transport attempt rq)); discriminate.
    + now apply stops_false.
  - intros Hmax.
    destruct (retry_loop_run settings transport rq tr Hmax)
      as (k & _ & _ & _ & ->).
    simpl. destruct (conclude (transport k rq)); discriminate.
  - apply retry_loop_skipped.
Qed.

(** C7, an instance: the default settings, a pool that always times out. *)
Lemma fallback_unreachable_nonneg_witness :
  fst (YouGileClient.retry_loop Settings.default Sample.always_timeout
         (outgoing "GET" "/users" None None ∅) [])
  <> Return None.
Proof.
  refine (proj1 (proj2 (fallback_unreachable_nonneg Settings.default
            Sample.always_timeout (outgoing "GET" "/users" None None ∅) [])) _).
  simpl. lia.
Defined.

(** C7 as stated fails: with [max_retries = -1], a value the settings accept,
    the loop body is never entered, the [for] statement completes, and
    [request] raises "Max retries exceeded" without sending anything. *)
Lemma fallback_reached_negative_retries :
  YouGileClient.retry_loop (Sample.with_retries (-1)) Sample.always_timeout
    (outgoing "GET" "/users" None None
       {[ "Authorization" := "Bearer key-1";
          "Content-Type" := "application/json";
          "Accept" := "application/json" ]}) []
  = (Return None, [])
  /\ YouGileClient.request (Sample.with_retries (-1)) Sample.always_timeout
       (Sample.client Sample.manager) "GET" "/users" None None []
     = (Raise (YouGile (exceptions.YouGileError
                          (PStr "Max retries exceeded") None None)), []).
Proof. split; reflexivity. Qed.

(** C8. Normalizing twice is normalizing once, for every path; and a bare
    path, one that does not itself start with "/api-v2", resolves to the same
    URL as that path with the prefix already put in front, namely the
    prefixed path. *)
Theorem full_url_idempotent (path : string) :
  YouGileClient.full_url (YouGileClient.full_url path)
  = YouGileClient.full_url path
  /\ startswith (YouGileClient.full_url path) "/api-v2" = true
  /\ (startswith path "/api-v2" = false ->
      YouGileClient.full_url ("/api-v2" +:+ path) = YouGileClient.full_url path
      /\ YouGileClient.full_url path = "/api-v2" +:+ path).
Proof.
  assert (Hp : startswith (YouGileClient.full_url path) "/api-v2" = true).
  { unfold YouGileClient.full_url.
    destruct (startswith path "/api-v2") eqn:E; simpl;
      [exact E|apply startswith_prefixed]. }
  split; [|split; [exact Hp|]].
  - unfold YouGileClient.full_url at 1. now rewrite Hp.
  - intros Hbare. unfold YouGileClient.full_url.
    now rewrite startswith_prefixed, Hbare.
Qed.

(** C8, an instance: "/users" and "/api-v2/users". *)
Lemma full_url_idempotent_witness :
  YouGileClient.full_url ("/api-v2" +:+ "/users") = YouGileClient.full_url "/users"
  /\ YouGileClient.full_url "/users" = "/api-v2" +:+ "/users".
Proof.
  refine (proj2 (proj2 (full_url_idempotent "/users")) _). reflexivity.
Defined.

Section Pairing.

Import AuthManager.

(** A test of one field that a stored, trimmed, non-empty value passes and
    [None] fails: being present, or being true. *)
Variable test : option string -> bool.
Hypothesis test_stored : forall s, s <> EmptyString -> test (Some s) = true.
Hypothesis test_none : test None = false.

Lemma alike_step (self : t) (o : op) :
  test (_api_key self) = test (_company_id self) ->
  test (_api_key (step self o)) = test (_company_id (step self o)).
Proof.
  intros H. destruct o as [k c|]; simpl; [|reflexivity].
  destruct (string_dec (strip k) EmptyString) as [Hk|Hk].
  { now rewrite (proj2 (set_credentials_rejects self k c (or_introl Hk))). }
  destruct (string_dec (strip c) EmptyString) as [Hc|Hc].
  { now rewrite (proj2 (set_credentials_rejects self k c (or_intror Hc))). }
  rewrite set_credentials_accepts by assumption. simpl.
  now rewrite !test_stored.
Qed.

Lemma alike_run (ops : list op) (self : t) :
  test (_api_key self) = test (_company_id self) ->
  test (_api_key (run self ops)) = test (_company_id (run self ops)).
Proof.
  revert self. induction ops as [|o ops IH]; intros self H; [exact H|].
  simpl. apply IH. now apply alike_step.
Qed.

End Pairing.

(** C9, as the code has it. Take a manager constructed with both a token
    and a company id or with neither, whether "with" means not [None], or
    non-empty as [is_authenticated] reads it, or both at once. After any
    sequence of [set_credentials] and [clear_credentials] calls, raising or
    not, the two fields are still set alike in the same sense, and
    [get_auth_headers] builds headers only when both are set: exactly when
    [is_authenticated] holds, in the two readings that look at
    emptiness. *)
Theorem credentials_paired (api_key company_id : option string)
    (ops : list AuthManager.op) :
  let present (o : option string) :=
    match o with Some _ => true | None => false end in
  let self := AuthManager.run (AuthManager.__init__ api_key company_id) ops in
  (AuthManager.paired (AuthManager.__init__ api_key company_id) = true ->
   AuthManager.paired self = true
   /\ raises (AuthManager.get_auth_headers self)
      = negb (AuthManager.is_authenticated self)
   /\ AuthManager.is_authenticated self
      = match AuthManager._api_key self, AuthManager._company_id self with
        | Some _, Some _ => true
        | _, _ => false
        end)
  /\ (truthy_opt api_key = truthy_opt company_id ->
      truthy_opt (AuthManager._api_key self)
      = truthy_opt (AuthManager._company_id self)
      /\ raises (AuthManager.get_auth_headers self)
         = negb (AuthManager.is_authenticated self))
  /\ (present api_key = present company_id ->
      present (AuthManager._api_key self)
      = present (AuthManager._company_id self)
      /\ (raises (AuthManager.get_auth_headers self) = false ->
          present (AuthManager._api_key self) = true
          /\ present (AuthManager._company_id self) = true)).
Proof.
  intros present self. split; [|split].
  - intros Hinit.
    assert (Hp : AuthManager.paired self = true) by now apply paired_run.
    split; [exact Hp|]. split; [now apply paired_headers|].
    unfold AuthManager.paired, AuthManager.is_authenticated in *.
    destruct (AuthManager._api_key self), (AuthManager._company_id self);
      simpl; try discriminate; [exact Hp|reflexivity].
  - intros Hinit.
    assert (Ht : truthy_opt (AuthManager._api_key self)
                 = truthy_opt (AuthManager._company_id self)).
    { apply (alike_run truthy_opt); [|exact Hinit].
      intros s Hs. now apply truthy_true. }
    split; [exact Ht|].
    unfold AuthManager.get_auth_headers, AuthManager.is_authenticated.
    rewrite <- Ht.
    now destruct (truthy_opt (AuthManager._api_key self)).
  - intros Hinit.
    assert (Ht : present (AuthManager._api_key self)
                 = present (AuthManager._company_id self)).
    { apply (alike_run present); [|exact Hinit]. reflexivity. }
    split; [exact Ht|].
    intros Hh. rewrite <- Ht.
    unfold AuthManager.get_auth_headers in Hh.
    destruct (AuthManager._api_key self); [now split|discriminate].
Qed.

(** C9, an instance: a manager constructed with both arguments, cleared and
    then given a padded pair. *)
Lemma credentials_paired_witness :
  AuthManager.paired
    (AuthManager.run (AuthManager.__init__ (Some "key-1") (Some "company-1"))
       [AuthManager.ClearCredentials;
        AuthManager.SetCredentials " key-2 " "company-2 "])
  = true.
Proof.
  refine (proj1 (proj1 (credentials_paired (Some "key-1") (Some "company-1")
                          [AuthManager.ClearCredentials;
                           AuthManager.SetCredentials " key-2 " "company-2 "])
                   _)).
  reflexivity.
Defined.

(** C9 as stated fails at construction: [AuthManager(api_key="key-1")] holds
    a token and no company id, is not authenticated, and [get_auth_headers],
    which looks at the token alone, builds the bearer headers from it. *)
Lemma constructor_allows_partial_credential :
  let self := AuthManager.__init__ (Some "key-1") None in
  AuthManager.paired self = false
  /\ AuthManager.is_authenticated self = false
  /\ AuthManager.get_auth_headers self
     = Return {[ "Authorization" := "Bearer key-1";
                 "Content-Type" := "application/json";
                 "Accept" := "application/json" ]}.
Proof. repeat split. Qed.

(** C10. On a client whose [_client] is unset, as it is from construction
    until [__aenter__] runs, [request], and so [get], [post], [put] and
    [delete], raise [RuntimeError] and leave the trace as it was, whatever the
    path and the credential are: no header is selected, no credential is
    checked, nothing is sent. In particular a missing credential does not
    yield an authentication error there; it does once [__aenter__] has
    run. *)
Theorem uninitialized_client_raises_first (settings : Settings.t)
    (transport : nat -> HttpRequest -> Result Response)
    (self : YouGileClient.t) (method path : string)
    (json_body params : option (gmap string pyval)) (tr : list Event) :
  YouGileClient._client self = None ->
  let not_initialized : Result pyval * list Event :=
    (Raise (RuntimeError
              "Client not initialized. Use 'async with' context manager."), tr) in
  YouGileClient.request settings transport self method path json_body params tr
  = not_initialized
  /\ YouGileClient.get settings transport self path params tr = not_initialized
  /\ YouGileClient.post settings transport self path json_body params tr
     = not_initialized
  /\ YouGileClient.put settings transport self path json_body tr = not_initialized
  /\ YouGileClient.delete settings transport self path tr = not_initialized
  /\ (forall am, YouGileClient._client (YouGileClient.__init__ settings am) = None)
  /\ (startswith path "/auth/" || startswith path "/api-v2/auth/" = false ->
      truthy_opt (AuthManager._api_key (YouGileClient.auth_manager self)) = false ->
      YouGileClient.request settings transport
        (YouGileClient.__aenter__ settings self) method path json_body params tr
      = (Raise (YouGile (exceptions.AuthenticationError
                           (PStr "No API key configured"))), tr)).
Proof.
  intros Hc not_initialized. subst not_initialized.
  unfold YouGileClient.get, YouGileClient.post, YouGileClient.put,
    YouGileClient.delete.
  rewrite !request_not_initialized by exact Hc.
  repeat split.
  intros Hp Hk.
  eapply request_no_headers; [reflexivity|].
  unfold select_headers. simpl. rewrite Hp.
  unfold AuthManager.get_auth_headers. now rewrite Hk.
Qed.

(** C10, an instance: a client just constructed around an empty manager. *)
Lemma uninitialized_client_raises_first_witness :
  YouGileClient.get Settings.default Sample.always_timeout
    (YouGileClient.__init__ Settings.default None) "/users" None []
  = (Raise (RuntimeError
              "Client not initialized. Use 'async with' context manager."), []).
Proof.
  refine (proj1 (proj2 (uninitialized_client_raises_first Settings.default
            Sample.always_timeout (YouGileClient.__init__ Settings.default None)
            "GET" "/users" None None [] _))).
  reflexivity.
Defined.

(** * Further properties of the code *)

(** ** Trimming and lower-casing *)

Section MoreStrings.

Lemma lstrip_rstrip_lstrip (s : string) :
  lstrip (rstrip (lstrip s)) = rstrip (lstrip s).
Proof.
  induction s as [|c s IH]; [reflexivity|]. simpl.
  destruct (isspace c) eqn:Hc; [exact IH|]. simpl. rewrite Hc.
  destruct (rstrip s); simpl; now rewrite Hc.
Qed.

Lemma rstrip_rstrip (s : string) : rstrip (rstrip s) = rstrip s.
Proof.
  induction s as [|c s IH]; [reflexivity|]. simpl.
  destruct (rstrip s) as [|c' r] eqn:Hr.
  - destruct (isspace c) eqn:Hc; [reflexivity|]. simpl. now rewrite Hc.
  - change (rstrip (String c (String c' r))) with
      (match rstrip (String c' r) with
       | EmptyString => if isspace c then EmptyString else String c EmptyString
       | r' => String c r'
       end).
    now rewrite IH.
Qed.

(** Trimming twice is trimming once. *)
Lemma strip_strip (s : string) : strip (strip s) = strip s.
Proof. unfold strip. now rewrite lstrip_rstrip_lstrip, rstrip_rstrip. Qed.

Lemma isspace_lower_char (c : ascii) : isspace (lower_char c) = isspace c.
Proof. destruct c as [[] [] [] [] [] [] [] []]; reflexivity. Qed.

Lemma lower_char_lower_char (c : ascii) :
  lower_char (lower_char c) = lower_char c.
Proof. destruct c as [[] [] [] [] [] [] [] []]; reflexivity. Qed.

Lemma lower_lower (s : string) : lower (lower s) = lower s.
Proof.
  induction s as [|c s IH]; simpl; [reflexivity|].
  now rewrite lower_char_lower_char, IH.
Qed.

Lemma lstrip_lower (s : string) : lstrip (lower s) = lower (lstrip s).
Proof.
  induction s as [|c s IH]; simpl; [reflexivity|].
  rewrite isspace_lower_char. now destruct (isspace c).
Qed.

Lemma rstrip_lower (s : string) : rstrip (lower s) = lower (rstrip s).
Proof.
  induction s as [|c s IH]; simpl; [reflexivity|].
  rewrite IH, isspace_lower_char.
  destruct (rstrip s); simpl; [now destruct (isspace c)|reflexivity].
Qed.

Lemma strip_lower (s : string) : strip (lower s) = lower (strip s).
Proof. unfold strip. now rewrite lstrip_lower, rstrip_lower. Qed.

(** A trimmed string does not end in whitespace. *)
Lemma rstrip_last (s t : string) (c : ascii) :
  rstrip s = t +:+ String c EmptyString -> isspace c = false.
Proof.
  revert t. induction s as [|a s IH]; intros t; simpl.
  - destruct t; discriminate.
  - destruct (rstrip s) as [|c' r] eqn:Hr.
    + destruct (isspace a) eqn:Ha; [destruct t; discriminate|].
      destruct t as [|b t]; [intros [= <-]; exact Ha|].
      intros [= _ H]. destruct t; discriminate.
    + destruct t as [|b t]; [discriminate|].
      intros [= _ H]. now apply (IH t).
Qed.

Lemma all_chars_app (p : ascii -> bool) (s t : string) :
  all_chars p (s +:+ t) = all_chars p s && all_chars p t.
Proof.
  induction s as [|c s IH]; [reflexivity|].
  change (String c s +:+ t) with (String c (s +:+ t)). simpl.
  now rewrite IH, andb_assoc.
Qed.

Lemma count_char_app (c : ascii) (s t : string) :
  count_char c (s +:+ t) = (count_char c s + count_char c t)%nat.
Proof.
  induction s as [|a s IH]; [reflexivity|].
  change (String a s +:+ t) with (String a (s +:+ t)). simpl.
  rewrite IH. lia.
Qed.

Lemma count_char_absent (p : ascii -> bool) (c : ascii) (s : string) :
  p c = false -> all_chars p s = true -> count_char c s = 0%nat.
Proof.
  intros Hc. induction s as [|a s IH]; [reflexivity|]. simpl.
  intros [Ha Hs]%andb_prop. rewrite (IH Hs).
  destruct (Ascii.eqb_spec c a) as [->|]; [congruence|reflexivity].
Qed.

Lemma length_app (s t : string) :
  String.length (s +:+ t) = (String.length s + String.length t)%nat.
Proof.
  induction s as [|c s IH]; [reflexivity|].
  change (String c s +:+ t) with (String c (s +:+ t)). simpl. now rewrite IH.
Qed.

Lemma app_empty_r (s : string) : s +:+ EmptyString = s.
Proof.
  induction s as [|c s IH]; [reflexivity|].
  change (String c s +:+ EmptyString) with (String c (s +:+ EmptyString)).
  now rewrite IH.
Qed.

Lemma app_assoc_string (s t u : string) : (s +:+ t) +:+ u = s +:+ (t +:+ u).
Proof.
  induction s as [|c s IH]; [reflexivity|].
  change ((String c s +:+ t) +:+ u) with (String c ((s +:+ t) +:+ u)).
  change (String c s +:+ (t +:+ u)) with (String c (s +:+ (t +:+ u))).
  now rewrite IH.
Qed.

End MoreStrings.

(** ** The regular-expression matcher *)

Section Regex.

Import re.

Lemma matches_empty_string (r : regex) (s : string) :
  Matches r s -> s = EmptyString -> nullable r = true.
Proof.
  induction 1 as [|p c Hp|r1 r2 s1 s2 H1 IH1 H2 IH2|r1 r2 s H1 IH1
                  |r1 r2 s H2 IH2|r|r s1 s2 H1 IH1 H2 IH2];
    intros Hs; simpl; try reflexivity; try discriminate.
  - destruct s1; [|discriminate]. rewrite IH1 by reflexivity. now apply IH2.
  - now rewrite IH1.
  - rewrite IH2 by assumption. apply orb_true_r.
Qed.

Lemma nullable_matches (r : regex) :
  nullable r = true -> Matches r EmptyString.
Proof.
  induction r as [| |p|r1 IH1 r2 IH2|r1 IH1 r2 IH2|r IH]; simpl;
    try discriminate.
  - constructor.
  - intros [H1 H2]%andb_prop.
    change EmptyString with (EmptyString +:+ EmptyString).
    constructor; auto.
  - intros [H|H]%orb_prop; [apply MAltL|apply MAltR]; auto.
  - constructor.
Qed.

Lemma deriv_sound (c : ascii) (r : regex) (s : string) :
  Matches (deriv c r) s -> Matches r (String c s).
Proof.
  revert s.
  induction r as [| |p|r1 IH1 r2 IH2|r1 IH1 r2 IH2|r IH]; intros s; simpl.
  - inversion 1.
  - inversion 1.
  - destruct (p c) eqn:Hp; inversion 1; subst. now constructor.
  - assert (Hleft : Matches (Seq (deriv c r1) r2) s ->
                    Matches (Seq r1 r2) (String c s)).
    { inversion 1 as [| |? ? s1 s2 Ha Hb| | | |]; subst.
      change (String c (s1 +:+ s2)) with (String c s1 +:+ s2).
      constructor; auto. }
    destruct (nullable r1) eqn:Hn; [|exact Hleft].
    inversion 1 as [| | |? ? ? Ha|? ? ? Hb| |]; subst; [now apply Hleft|].
    change (String c s) with (EmptyString +:+ String c s).
    constructor; [now apply nullable_matches|now apply IH2].
  - inversion 1; subst; [apply MAltL|apply MAltR]; auto.
  - inversion 1 as [| |? ? s1 s2 Ha Hb| | | |]; subst.
    change (String c (s1 +:+ s2)) with (String c s1 +:+ s2).
    constructor; auto.
Qed.

Lemma deriv_complete (r : regex) (t : string) :
  Matches r t ->
  forall c s, t = String c s -> Matches (deriv c r) s.
Proof.
  induction 1 as [|p c' Hp|r1 r2 s1 s2 H1 IH1 H2 IH2|r1 r2 s' H1 IH1
                  |r1 r2 s' H2 IH2|r|r s1 s2 H1 IH1 H2 IH2];
    intros c s Heq; simpl.
  - discriminate.
  - injection Heq as -> <-. rewrite Hp. constructor.
  - destruct s1 as [|a s1].
    + change (EmptyString +:+ s2) with s2 in Heq.
      rewrite (matches_empty_string r1 EmptyString H1 eq_refl).
      apply MAltR. now apply IH2.
    + change (String a s1 +:+ s2) with (String a (s1 +:+ s2)) in Heq.
      injection Heq as -> <-.
      assert (Hseq : Matches (Seq (deriv c r1) r2) (s1 +:+ s2))
        by (constructor; auto).
      destruct (nullable r1); [now apply MAltL|exact Hseq].
  - apply MAltL. now apply IH1.
  - apply MAltR. now apply IH2.
  - discriminate.
  - destruct s1 as [|a s1].
    + change (EmptyString +:+ s2) with s2 in Heq. now apply IH2.
    + change (String a s1 +:+ s2) with (String a (s1 +:+ s2)) in Heq.
      injection Heq as -> <-. constructor; auto.
Qed.

(** The matcher decides membership in the language of the pattern. *)
Lemma match_spec (r : regex) (s : string) :
  match_ r s = true <-> Matches r s.
Proof.
  revert r. induction s as [|c s IH]; intros r; simpl.
  - split; [apply nullable_matches|].
    intros H. now apply (matches_empty_string r EmptyString).
  - rewrite IH. split; [apply deriv_sound|].
    intros H. now apply (deriv_complete r (String c s)).
Qed.

Lemma star_set (p : ascii -> bool) (s : string) :
  Matches (Star (Set_ p)) s <-> all_chars p s = true.
Proof.
  split.
  - intros H. remember (Star (Set_ p)) as r eqn:Hr.
    induction H as [| | | | | |r' s1 s2 H1 _ H2 IH2]; try discriminate.
    + reflexivity.
    + injection Hr as ->. rewrite all_chars_app, (IH2 eq_refl), andb_true_r.
      inversion H1 as [|? c Hp| | | | |]; subst. simpl. now rewrite Hp.
  - induction s as [|c s IH]; simpl; [constructor|].
    intros [Hc Hs]%andb_prop.
    change (String c s) with (String c EmptyString +:+ s).
    constructor; [now constructor|auto].
Qed.

Lemma plus_set (p : ascii -> bool) (s : string) :
  Matches (Plus (Set_ p)) s <-> s <> EmptyString /\ all_chars p s = true.
Proof.
  split.
  - inversion 1 as [| |? ? s1 s2 H1 H2| | | |]; subst.
    inversion H1 as [|? c Hp| | | | |]; subst.
    apply star_set in H2. split; [discriminate|].
    simpl. now rewrite Hp.
  - destruct s as [|c s]; [tauto|]. simpl. intros [_ [Hc Hs]%andb_prop].
    change (String c s) with (String c EmptyString +:+ s).
    constructor; [now constructor|now apply star_set].
Qed.

Lemma two_or_more_set (p : ascii -> bool) (s : string) :
  Matches (TwoOrMore (Set_ p)) s
  <-> (2 <= String.length s)%nat /\ all_chars p s = true.
Proof.
  split.
  - inversion 1 as [| |? ? s1 s2 H1 H2| | | |]; subst.
    inversion H1 as [|? c Hp| | | | |]; subst.
    apply (plus_set p s2) in H2 as [Hne Hs].
    split; [destruct s2; [contradiction|simpl; lia]|].
    simpl. now rewrite Hp.
  - destruct s as [|c [|c' s]]; simpl; try lia.
    intros [_ [Hc [Hc' Hs]%andb_prop]%andb_prop].
    change (String c (String c' s))
      with (String c EmptyString +:+ String c' s).
    constructor; [now constructor|].
    apply plus_set. split; [discriminate|]. simpl. now rewrite Hc'.
Qed.

End Regex.

(** ** validate_email *)

Section Email.

Import re validation.

Lemma set_eqb_inv (a : ascii) (s : string) :
  Matches (Set_ (Ascii.eqb a)) s -> s = String a EmptyString.
Proof.
  inversion 1 as [|? c Hc| | | | |]; subst.
  apply Ascii.eqb_eq in Hc. now subst.
Qed.

(** The strings of the pattern: an address of the shape above, or one
    followed by a final newline. *)
Lemma pattern_shape (e : string) :
  Matches pattern e
  <-> email_shape e
      \/ exists e', e = e' +:+ String (ascii_of_nat 10) EmptyString
                    /\ email_shape e'.
Proof.
  split.
  - unfold pattern.
    inversion 1 as [| |? ? local r1 Hl H1| | | |]; subst.
    inversion H1 as [| |? ? at_ r2 Ha H2| | | |]; subst.
    inversion H2 as [| |? ? domain r3 Hd H3| | | |]; subst.
    inversion H3 as [| |? ? dot r4 Hdot H4| | | |]; subst.
    inversion H4 as [| |? ? tld eol Ht He| | | |]; subst.
    apply set_eqb_inv in Ha, Hdot. subst.
    apply plus_set in Hl as [Hl1 Hl2], Hd as [Hd1 Hd2].
    apply two_or_more_set in Ht as [Ht1 Ht2].
    assert (Hshape : email_shape (local +:+ "@" +:+ domain +:+ "." +:+ tld))
      by (exists local, domain, tld; repeat split; assumption).
    inversion He as [| | |? ? ? Hend|? ? ? Hnl| |]; subst.
    + inversion Hend; subst. left. now rewrite app_empty_r.
    + apply set_eqb_inv in Hnl. subst. right.
      exists (local +:+ "@" +:+ domain +:+ "." +:+ tld). split; [|exact Hshape].
      now rewrite !app_assoc_string.
  - assert (Hbody : forall e' eol,
              email_shape e' -> Matches Dollar eol ->
              Matches pattern (e' +:+ eol)).
    { intros e' eol (local & domain & tld & -> & Hl1 & Hl2 & Hd1 & Hd2
                     & Ht1 & Ht2) Heol.
      rewrite !app_assoc_string. unfold pattern.
      constructor; [now apply plus_set|].
      constructor; [constructor; apply Ascii.eqb_refl|].
      constructor; [now apply plus_set|].
      constructor; [constructor; apply Ascii.eqb_refl|].
      constructor; [now apply two_or_more_set|exact Heol]. }
    intros [Hs|(e' & -> & Hs)].
    + rewrite <- (app_empty_r e). apply Hbody; [exact Hs|].
      apply MAltL. constructor.
    + apply Hbody; [exact Hs|]. apply MAltR. constructor. apply Ascii.eqb_refl.
Qed.

Lemma email_shape_nonempty (e : string) : email_shape e -> e <> EmptyString.
Proof.
  intros (local & domain & tld & -> & Hl & _). destruct local; [contradiction|].
  discriminate.
Qed.

(** What the matcher accepts of a trimmed string. *)
Lemma match_trimmed (s : string) :
  match_ pattern (lower (strip s)) = true <-> email_shape (lower (strip s)).
Proof.
  rewrite match_spec, pattern_shape. split; [|now left].
  intros [H|(e' & He & _)]; [exact H|].
  rewrite <- strip_lower in He. unfold strip in He.
  apply rstrip_last in He. discriminate.
Qed.

End Email.

(** * Properties beyond the claims *)

(** X1. [validate_email] returns exactly for a non-empty string whose
    trimmed, lower-cased form consists of one or more characters of
    [[a-zA-Z0-9._%+-]], an "@", one or more characters of [[a-zA-Z0-9.-]], a
    dot and two or more letters; what it returns is that form. Anything that
    is not a string is rejected. *)
Theorem validate_email_accepts (email : pyval) (e : string) :
  validation.validate_email email = Return e
  <-> exists s, email = PStr s /\ e = lower (strip s) /\ email_shape e.
Proof.
  split.
  - destruct email as [| | | |s| |]; try discriminate. simpl.
    destruct (truthy s); simpl; [|discriminate].
    destruct (re.match_ validation.pattern (lower (strip s))) eqn:Hm;
      simpl; [|discriminate].
    intros [= <-]. exists s. repeat split. now apply match_trimmed.
  - intros (s & -> & -> & Hshape). simpl.
    assert (Hs : truthy s = true).
    { apply truthy_true. intros ->. now apply email_shape_nonempty in Hshape. }
    rewrite Hs. simpl.
    now rewrite (proj2 (match_trimmed s) Hshape).
Qed.

(** X1, an instance: padding and capitals are removed. *)
Lemma validate_email_accepts_witness :
  exists s, PStr " John.Doe@Example.COM " = PStr s
            /\ "john.doe@example.com" = lower (strip s)
            /\ email_shape "john.doe@example.com".
Proof.
  refine (proj1 (validate_email_accepts (PStr " John.Doe@Example.COM ")
                   "john.doe@example.com") _).
  reflexivity.
Defined.

(** X2. An address [validate_email] returns is in normal form: it contains
    exactly one "@", lower-casing and trimming leave it as it is, and
    validating it again returns it unchanged. *)
Theorem validate_email_normal_form (email : pyval) (e : string) :
  validation.validate_email email = Return e ->
  count_char "@" e = 1%nat
  /\ lower e = e
  /\ strip e = e
  /\ validation.validate_email (PStr e) = Return e.
Proof.
  intros H. pose proof H as (s & -> & He & Hshape)%validate_email_accepts.
  assert (Hlower : lower e = e) by (rewrite He; apply lower_lower).
  assert (Hstrip : strip e = e)
    by (rewrite He, strip_lower, strip_strip; reflexivity).
  repeat split; try assumption.
  - destruct Hshape as (local & domain & tld & -> & _ & Hl & _ & Hd & _ & Ht).
    rewrite !count_char_app.
    rewrite (count_char_absent validation.is_local_char "@" local eq_refl Hl).
    rewrite (count_char_absent validation.is_domain_char "@" domain eq_refl Hd).
    rewrite (count_char_absent validation.is_alpha_char "@" tld eq_refl Ht).
    reflexivity.
  - apply validate_email_accepts. exists e.
    rewrite Hstrip, Hlower. now repeat split.
Qed.

(** X2, an instance. *)
Lemma validate_email_normal_form_witness :
  validation.validate_email (PStr "john.doe@example.com")
  = Return "john.doe@example.com".
Proof.
  refine (proj2 (proj2 (proj2 (validate_email_normal_form
            (PStr " John.Doe@Example.COM ") "john.doe@example.com" _)))).
  reflexivity.
Defined.

(** X3. [validate_pagination] returns exactly when the limit, 50 if absent,
    lies between 1 and 1000 and the offset, 0 if absent, is not negative; it
    then returns these two values. When it raises, the error names the limit
    if the limit is out of range, whatever the offset, and the offset
    otherwise. *)
Theorem validate_pagination_accepts (limit offset : option Z) :
  let l := default 50 limit in
  let o := default 0 offset in
  (forall d, validation.validate_pagination limit offset = Return d
             <-> d = {[ "limit" := l; "offset" := o ]}
                 /\ 1 <= l <= 1000 /\ 0 <= o)
  /\ (l < 1 \/ 1000 < l ->
      validation.validate_pagination limit offset
      = Raise (YouGile (exceptions.ValidationError
                          (PStr "Limit must be between 1 and 1000")
                          (Some "limit"))))
  /\ (1 <= l <= 1000 -> o < 0 ->
      validation.validate_pagination limit offset
      = Raise (YouGile (exceptions.ValidationError
                          (PStr "Offset must be non-negative")
                          (Some "offset")))).
Proof.
  intros l o. subst l o. unfold validation.validate_pagination.
  destruct limit as [l|], offset as [o|]; simpl;
    repeat match goal with
           | |- context [?a <? ?b] => destruct (Z.ltb_spec a b)
           | |- context [?a >? ?b] =>
               rewrite (Z.gtb_ltb a b); destruct (Z.ltb_spec b a)
           end; simpl;
    (split; [intros d; split; [intros [= <-]; repeat split; lia
                              |intros (-> & ? & ?); try reflexivity; lia]
            |split; intros; try reflexivity; lia]).
Qed.

(** X3, an instance: a limit of 0 is refused even with a valid offset. *)
Lemma validate_pagination_accepts_witness :
  validation.validate_pagination (Some 0) (Some 20)
  = Raise (YouGile (exceptions.ValidationError
                      (PStr "Limit must be between 1 and 1000") (Some "limit"))).
Proof.
  refine (proj1 (proj2 (validate_pagination_accepts (Some 0) (Some 20))) _).
  left. simpl. lia.
Defined.

(** X4. The dictionary [validate_pagination] returns holds a limit between
    1 and 1000 and a non-negative offset, and validating these two again
    returns the same dictionary. *)
Theorem validate_pagination_stable (limit offset : option Z)
    (d : gmap string Z) :
  validation.validate_pagination limit offset = Return d ->
  exists l o,
    d !! "limit" = Some l /\ d !! "offset" = Some o
    /\ 1 <= l <= 1000 /\ 0 <= o
    /\ validation.validate_pagination (d !! "limit") (d !! "offset")
       = Return d.
Proof.
  intros H.
  apply (proj1 (validate_pagination_accepts limit offset)) in H
    as (-> & Hl & Ho).
  exists (default 50 limit), (default 0 offset).
  assert (L1 : ({[ "limit" := default 50 limit; "offset" := default 0 offset ]}
                : gmap string Z) !! "limit" = Some (default 50 limit))
    by reflexivity.
  assert (L2 : ({[ "limit" := default 50 limit; "offset" := default 0 offset ]}
                : gmap string Z) !! "offset" = Some (default 0 offset))
    by reflexivity.
  rewrite L1, L2. repeat split; try lia.
  apply (proj1 (validate_pagination_accepts (Some (default 50 limit))
                  (Some (default 0 offset)))).
  simpl. repeat split; lia.
Qed.

(** X4, an instance: the defaults. *)
Lemma validate_pagination_stable_witness :
  exists l o,
    ({[ "limit" := 50; "offset" := 0 ]} : gmap string Z) !! "limit" = Some l
    /\ ({[ "limit" := 50; "offset" := 0 ]} : gmap string Z) !! "offset" = Some o
    /\ 1 <= l <= 1000 /\ 0 <= o
    /\ validation.validate_pagination
         (({[ "limit" := 50; "offset" := 0 ]} : gmap string Z) !! "limit")
         (({[ "limit" := 50; "offset" := 0 ]} : gmap string Z) !! "offset")
       = Return {[ "limit" := 50; "offset" := 0 ]}.
Proof.
  refine (validate_pagination_stable None None _ _). reflexivity.
Defined.

(** X5. [validate_non_empty_string] returns exactly for a string that is not
    whitespace only and whose trimmed form is no longer than a positive
    [max_length]; it returns the trimmed form. A [max_length] of [None] or 0
    sets no limit, and a negative one refuses every value. *)
Theorem validate_non_empty_string_accepts (value : pyval)
    (field_name : string) (max_length : option Z) (r : string) :
  (validation.validate_non_empty_string value field_name max_length = Return r
   <-> exists s,
         value = PStr s /\ blank s = false /\ r = strip s
         /\ match max_length with
            | Some m => m = 0 \/ len r <= m
            | None => True
            end)
  /\ (validation.validate_non_empty_string value field_name (Some 0)
      = validation.validate_non_empty_string value field_name None)
  /\ (forall m, m < 0 ->
        raises (validation.validate_non_empty_string value field_name (Some m))
        = true).
Proof.
  assert (Hblank : forall s, truthy (strip s) = negb (blank s)).
  { intros s. destruct (blank s) eqn:Hb.
    - apply strip_empty in Hb. now rewrite Hb.
    - destruct (strip s) eqn:Hs; [|reflexivity].
      apply strip_empty in Hs. congruence. }
  assert (Hempty : forall s, truthy s = false -> blank s = true).
  { intros s ->%truthy_false. reflexivity. }
  split; [split|split].
  - destruct value as [| | | |s| |]; try discriminate. simpl.
    destruct (truthy s) eqn:Ht; simpl; [|discriminate].
    rewrite Hblank. destruct (blank s) eqn:Hb; simpl; [discriminate|].
    destruct max_length as [m|].
    + destruct (m =? 0) eqn:Hm; simpl.
      * intros [= <-]. exists s. repeat split; try assumption.
        left. now apply Z.eqb_eq.
      * rewrite Z.gtb_ltb. destruct (Z.ltb_spec m (len (strip s)));
          [discriminate|].
        intros [= <-]. exists s. repeat split; try assumption. now right.
    + intros [= <-]. now exists s.
  - intros (s & -> & Hb & -> & Hm). simpl.
    destruct (truthy s) eqn:Ht; [|apply Hempty in Ht; congruence]. simpl.
    rewrite Hblank, Hb. simpl.
    destruct max_length as [m|]; [|reflexivity].
    destruct (m =? 0) eqn:Hm0; simpl; [reflexivity|].
    apply Z.eqb_neq in Hm0. rewrite Z.gtb_ltb.
    destruct (Z.ltb_spec m (len (strip s))); [lia|reflexivity].
  - now destruct value.
  - intros m Hm. destruct value as [| | | |s| |]; try reflexivity. simpl.
    destruct (truthy s); simpl; [|reflexivity].
    destruct (truthy (strip s)); simpl; [|reflexivity].
    replace (m =? 0) with false by (symmetry; apply Z.eqb_neq; lia).
    rewrite Z.gtb_ltb. unfold len.
    destruct (Z.ltb_spec m (Z.of_nat (String.length (strip s))));
      [reflexivity|lia].
Qed.

(** X5, an instance: a padded title within the limit. *)
Lemma validate_non_empty_string_accepts_witness :
  validation.validate_non_empty_string (PStr "  Sprint 12 ") "title" (Some 9)
  = Return "Sprint 12".
Proof.
  refine (proj2 (proj1 (validate_non_empty_string_accepts
            (PStr "  Sprint 12 ") "title" (Some 9) "Sprint 12")) _).
  exists "  Sprint 12 ". repeat split. right. vm_compute. discriminate.
Defined.

(** X6. What [validate_non_empty_string] returns is not empty, neither
    starts nor ends with whitespace, and passes the same validation again
    unchanged. *)
Theorem validate_non_empty_string_stable (value : pyval)
    (field_name : string) (max_length : option Z) (r : string) :
  validation.validate_non_empty_string value field_name max_length = Return r ->
  r <> EmptyString
  /\ lstrip r = r /\ rstrip r = r
  /\ validation.validate_non_empty_string (PStr r) field_name max_length
     = Return r.
Proof.
  intros H.
  apply (proj1 (validate_non_empty_string_accepts value field_name
                  max_length r)) in H as (s & -> & Hb & -> & Hm).
  assert (Hne : strip s <> EmptyString).
  { intros He. apply strip_empty in He. congruence. }
  assert (Hb' : blank (strip s) = false).
  { destruct (blank (strip s)) eqn:E; [|reflexivity].
    apply strip_empty in E. rewrite strip_strip in E. contradiction. }
  repeat split.
  - exact Hne.
  - unfold strip. apply lstrip_rstrip_lstrip.
  - unfold strip. apply rstrip_rstrip.
  - apply (proj1 (validate_non_empty_string_accepts (PStr (strip s))
                    field_name max_length (strip s))).
    exists (strip s). rewrite strip_strip. now repeat split.
Qed.

(** X6, an instance. *)
Lemma validate_non_empty_string_stable_witness :
  validation.validate_non_empty_string (PStr "Sprint 12") "title" None
  = Return "Sprint 12".
Proof.
  refine (proj2 (proj2 (proj2 (validate_non_empty_string_stable
            (PStr "  Sprint 12 ") "title" None "Sprint 12" _)))).
  reflexivity.
Defined.

Section RequiredFields.

Import validation.

Lemma required_field_filled (data : gmap string pyval) (field : string) :
  validate_required_fields_field data field
  = if filled data field then Return tt else Raise (field_error data field).
Proof.
  unfold validate_required_fields_field, filled, field_error.
  destruct (data !! field) as [[| | | |s| |]|]; try reflexivity.
  destruct (blank s) eqn:Hb; simpl.
  - apply strip_empty in Hb. now rewrite Hb.
  - destruct (strip s) eqn:Hs; [|reflexivity].
    apply strip_empty in Hs. congruence.
Qed.

End RequiredFields.

(** X7. [validate_required_fields] raises about the first field of the
    list, in list order, that is missing, [None] or a string of whitespace:
    "is required" when the key is absent, "cannot be empty" otherwise, with
    that field as the error's [field]; it returns when there is none. Values
    such as 0, [False] or an empty list count as filled. *)
Theorem validate_required_fields_first_offender (data : gmap string pyval)
    (required_fields : list string) :
  validation.validate_required_fields data required_fields
  = match find (fun field => negb (filled data field)) required_fields with
    | Some field => Raise (field_error data field)
    | None => Return tt
    end
  /\ (forall k,
        validation.validate_required_fields (<[k := PInt 0]> data) [k]
        = Return tt
        /\ validation.validate_required_fields (<[k := PBool false]> data) [k]
           = Return tt
        /\ validation.validate_required_fields (<[k := PList []]> data) [k]
           = Return tt
        /\ raises (validation.validate_required_fields
                     (<[k := PNone]> data) [k]) = true
        /\ raises (validation.validate_required_fields
                     (<[k := PStr " "]> data) [k]) = true).
Proof.
  split.
  - induction required_fields as [|field rest IH]; [reflexivity|]. simpl.
    rewrite required_field_filled.
    destruct (filled data field); simpl; [exact IH|reflexivity].
  - intros k. simpl. rewrite !required_field_filled. unfold filled.
    rewrite !lookup_insert_eq. now repeat split.
Qed.

(** X8. [validate_required_fields] returns exactly when every listed field
    is filled; so the outcome for a list put together from two lists is a
    return exactly when both parts return, and listing a field twice or in
    another order changes nothing about acceptance. *)
Theorem validate_required_fields_accepts (data : gmap string pyval)
    (fields more : list string) :
  (validation.validate_required_fields data fields = Return tt
   <-> forall field, In field fields -> filled data field = true)
  /\ (validation.validate_required_fields data (fields ++ more) = Return tt
      <-> validation.validate_required_fields data fields = Return tt
          /\ validation.validate_required_fields data more = Return tt).
Proof.
  assert (Hiff : forall l,
            validation.validate_required_fields data l = Return tt
            <-> forall field, In field l -> filled data field = true).
  { induction l as [|field rest IH]; simpl.
    - split; [intros _ ? []|reflexivity].
    - rewrite required_field_filled.
      destruct (filled data field) eqn:Hf; simpl.
      + rewrite IH. split.
        * intros H f [<-|Hin]; auto.
        * intros H f Hin. apply H. now right.
      + split; [discriminate|].
        intros H. specialize (H field (or_introl eq_refl)). congruence. }
  split; [apply Hiff|].
  rewrite !Hiff. split.
  - intros H. split; intros f Hin; apply H; apply in_or_app; auto.
  - intros [H1 H2] f [Hin|Hin]%in_app_or; auto.
Qed.

(** X8, an instance: a task with a title and a column. *)
Lemma validate_required_fields_accepts_witness :
  validation.validate_required_fields
    {[ "title" := PStr "Fix login"; "columnId" := PStr "c-1" ]}
    ["title"; "columnId"]
  = Return tt.
Proof.
  refine (proj2 (proj1 (validate_required_fields_accepts
            {[ "title" := PStr "Fix login"; "columnId" := PStr "c-1" ]}
            ["title"; "columnId"] [])) _).
  intros field [<-|[<-|[]]]; reflexivity.
Defined.

(** ** The response classification, further *)

(** X9. [_handle_response] returns for the statuses 200 and 201 only: every
    other status, the other 2xx codes such as 204 included, makes it raise,
    whatever the body. *)
Theorem only_200_201_return (response : Response) :
  raises (YouGileClient._handle_response response)
  = negb ((status_code response =? 200) || (status_code response =? 201))
  /\ (forall text body,
        raises (YouGileClient._handle_response
                  {| status_code := 204; text := text; json := body |}) = true).
Proof.
  assert (H : forall r,
            raises (YouGileClient._handle_response r)
            = negb ((status_code r =? 200) || (status_code r =? 201))).
  { intros r. unfold YouGileClient._handle_response.
    destruct ((status_code r =? 200) || (status_code r =? 201)).
    - now destruct (json r).
    - destruct (match json r with Some body => body | None => _ end);
        try reflexivity.
      repeat match goal with
             | |- context [if ?b then _ else _] => destruct b
             end; reflexivity. }
  split; [apply H|]. intros text body. now rewrite H.
Qed.

(** X10. An error response escapes the error classes of the client exactly
    when its body decodes to something that is not an object: then, and only
    then, [_handle_response] raises [AttributeError]. A body that does not
    decode at all is always classified. *)
Theorem attribute_error_iff (response : Response) :
  ((exists msg,
       YouGileClient._handle_response response = Raise (AttributeError msg))
   <-> status_code response <> 200 /\ status_code response <> 201
       /\ exists body, json response = Some body
                       /\ match body with PDict _ => False | _ => True end)
  /\ (json response = None ->
      forall msg,
        YouGileClient._handle_response response <> Raise (AttributeError msg)).
Proof.
  assert (Hcodes : forall c, (c =? 200) || (c =? 201) = false
                             <-> c <> 200 /\ c <> 201).
  { intros c. rewrite orb_false_iff, !Z.eqb_neq. tauto. }
  split; [split|].
  - intros [msg H]. unfold YouGileClient._handle_response in H.
    destruct ((status_code response =? 200) || (status_code response =? 201))
      eqn:Hc.
    { destruct (json response); discriminate. }
    apply Hcodes in Hc as [H200 H201]. split; [exact H200|split; [exact H201|]].
    destruct (json response) as [[| | | | | |d]|]; try (eexists; now split);
      exfalso; revert H;
      repeat match goal with
             | |- context [if ?b then _ else _] => destruct b
             end; discriminate.
  - intros (H200 & H201 & body & Hj & Hb).
    unfold YouGileClient._handle_response.
    rewrite (proj2 (Hcodes _) (conj H200 H201)), Hj.
    destruct body; try contradiction; eexists; reflexivity.
  - intros Hj msg. unfold YouGileClient._handle_response. rewrite Hj.
    repeat match goal with
           | |- context [if ?b then _ else _] => destruct b
           end; discriminate.
Qed.

(** X10, an instance: a 404 whose body is the JSON value [null]. *)
Lemma attribute_error_iff_witness :
  exists msg,
    YouGileClient._handle_response
      {| status_code := 404; text := "null"; json := Some PNone |}
    = Raise (AttributeError msg).
Proof.
  refine (proj2 (proj1 (attribute_error_iff
            {| status_code := 404; text := "null"; json := Some PNone |})) _).
  repeat split; try discriminate. exists PNone. now split.
Defined.

(** X11. For an error response whose body does not decode, the message of
    the raised error is the raw text of the body, or "HTTP <code>" when the
    body is empty, and the generic error carries that message under
    ["error"] as its details. *)
Theorem undecodable_error_body (response : Response) :
  status_code response <> 200 -> status_code response <> 201 ->
  json response = None ->
  let msg :=
    PStr (if truthy (text response) then text response
          else "HTTP " +:+ str_int (status_code response)) in
  exists e,
    YouGileClient._handle_response response = Raise (YouGile e)
    /\ exceptions.message e = msg
    /\ exceptions.status_code e = Some (status_code response)
    /\ exceptions.details e
       = (if (status_code response =? 401) || (status_code response =? 403)
             || (status_code response =? 404) || (status_code response =? 429)
          then ∅ else {[ "error" := msg ]}).
Proof.
  intros H200 H201 Hj msg.
  assert (Hp : error_payload response = PDict {[ "error" := msg ]}).
  { unfold error_payload. now rewrite Hj. }
  rewrite (handle_response_error response _ H200 H201 Hp).
  eexists. split; [reflexivity|].
  destruct (classified_attributes (status_code response)
              (default (PStr ("HTTP " +:+ str_int (status_code response)))
                       (({[ "error" := msg ]} : gmap string pyval) !! "error"))
              {[ "error" := msg ]}) as (Hs & Hm & _ & Hd).
  rewrite Hs, Hm, Hd. repeat split.
Qed.

(** X11, an instance: a 502 with a plain-text body. *)
Lemma undecodable_error_body_witness :
  exists e,
    YouGileClient._handle_response
      {| status_code := 502; text := "Bad Gateway"; json := None |}
    = Raise (YouGile e)
    /\ exceptions.message e = PStr "Bad Gateway"
    /\ exceptions.status_code e = Some 502
    /\ exceptions.details e = {[ "error" := PStr "Bad Gateway" ]}.
Proof.
  refine (undecodable_error_body
            {| status_code := 502; text := "Bad Gateway"; json := None |}
            _ _ _); [discriminate|discriminate|reflexivity].
Defined.

(** ** The retry loop, further *)

Section MoreRuns.

Import YouGileClient.

Variable settings : Settings.t.
Variable transport : nat -> HttpRequest -> Result Response.
Variable self : t.
Variables method path : string.
Variables json_body params : option (gmap string pyval).

#[local] Abbreviation max_retries := (Settings.yougile_max_retries settings).
#[local] Abbreviation the_run :=
  (request settings transport self method path json_body params []).

(** Every request of a call carries the method, the normalized path, the body
    and the query it was called with. *)
Lemma sent_arguments :
  Forall (fun rq => rq_method rq = method /\ rq_url rq = full_url path
                    /\ rq_json rq = json_body /\ rq_params rq = params)
         (sent (snd the_run)).
Proof.
  pose proof (request_cases settings transport self method path json_body
                params) as Hrun.
  destruct the_run as [res tr]. cbn [snd].
  inversion Hrun as [| | |pool headers k Hc Hh Hk Hbefore Hstop]; subst;
    try constructor.
  change (failed_attempts ?r 0 k ++ [EvRequest k ?r])%list
    with (schedule r (S k)).
  rewrite sent_schedule. apply Forall_forall.
  intros rq Hin%list_elem_of_In. apply repeat_spec in Hin. now subst.
Qed.

(** The attempt at which the loop stops decides the call. *)
Lemma request_stops_at (pool : AsyncClient) (headers : gmap string string)
    (k : nat) :
  _client self = Some pool ->
  select_headers (auth_manager self) path = Return headers ->
  Z.of_nat k <= max_retries ->
  (forall i, (i < k)%nat ->
     stops max_retries
       (transport i (outgoing method path json_body params headers)) i = false) ->
  stops max_retries
    (transport k (outgoing method path json_body params headers)) k = true ->
  the_run
  = (conclude (transport k (outgoing method path json_body params headers)),
     schedule (outgoing method path json_body params headers) (S k)).
Proof.
  intros Hc Hh Hk Hbefore Hstop.
  pose proof (request_cases settings transport self method path json_body
                params) as Hrun.
  destruct the_run as [res tr].
  inversion Hrun as [Hn|p e Hp He|p h Hp Hh' Hneg
                     |p h k' Hp Hh' Hk' Hbefore' Hstop']; subst;
    try congruence; try lia.
  assert (h = headers) as -> by congruence.
  assert (k' = k) as ->; [|reflexivity].
  destruct (Nat.lt_trichotomy k' k) as [Hlt|[Heq|Hgt]]; [|exact Heq|].
  - rewrite (Hbefore k' Hlt) in Hstop'. discriminate.
  - rewrite (Hbefore' k Hgt) in Hstop. discriminate.
Qed.

(** An attempt whose outcome is not a transport failure is the last one. *)
Lemma outcome_concludes (i : nat) (rq : HttpRequest) :
  In (EvRequest i rq) (snd the_run) ->
  retryable (transport i rq) = false ->
  fst the_run = conclude (transport i rq)
  /\ snd the_run = schedule rq (S i).
Proof.
  pose proof (request_cases settings transport self method path json_body
                params) as Hrun.
  destruct the_run as [res tr]. cbn [fst snd].
  inversion Hrun as [| | |pool headers k Hc Hh Hk Hbefore Hstop]; subst;
    try (intros []).
  intros Hin Ho. apply (in_schedule _ (S k)) in Hin as [-> Hi].
  assert (i = k) as ->; [|now split].
  destruct (Nat.eq_dec i k) as [|Hne]; [assumption|].
  destruct (stops_false settings transport _ i (Hbefore i ltac:(lia)))
    as [Hr _].
  congruence.
Qed.

End MoreRuns.

Section Backoff.

Lemma sum_powers (n : nat) :
  fold_right Z.add 0 (map (fun i => 2 ^ Z.of_nat i) (seq 0 n))
  = 2 ^ Z.of_nat n - 1.
Proof.
  induction n as [|n IH]; [reflexivity|].
  rewrite seq_S, map_app, fold_right_app. simpl.
  assert (G : forall l acc,
            fold_right Z.add acc l = fold_right Z.add 0 l + acc).
  { clear. induction l as [|x l IH]; intros acc; simpl; [lia|].
    rewrite IH. lia. }
  rewrite G, IH, Nat2Z.inj_succ, Z.pow_succ_r by lia. lia.
Qed.

Lemma total_delay_schedule (rq : HttpRequest) (n : nat) :
  total_delay (schedule rq n) = 2 ^ Z.of_nat (n - 1) - 1.
Proof. unfold total_delay. now rewrite delays_schedule, sum_powers. Qed.

End Backoff.

(** X12. The four convenience methods fix what is sent: every request of a
    [get] is a GET without a body, of a [post] a POST, of a [put] a PUT
    without a query, of a [delete] a DELETE with neither; each goes to the
    normalized path, which starts with "/api-v2", and carries the body and the
    query given, unchanged on every retry. *)
Theorem wrappers_fix_the_request (settings : Settings.t)
    (transport : nat -> HttpRequest -> Result Response)
    (self : YouGileClient.t) (path : string)
    (json_body params : option (gmap string pyval)) :
  let carries method body query :=
    fun rq => rq_method rq = method /\ rq_url rq = YouGileClient.full_url path
              /\ rq_json rq = body /\ rq_params rq = query in
  Forall (carries "GET" None params)
         (sent (snd (YouGileClient.get settings transport self path params [])))
  /\ Forall (carries "POST" json_body params)
            (sent (snd (YouGileClient.post settings transport self path
                          json_body params [])))
  /\ Forall (carries "PUT" json_body None)
            (sent (snd (YouGileClient.put settings transport self path
                          json_body [])))
  /\ Forall (carries "DELETE" None None)
            (sent (snd (YouGileClient.delete settings transport self path [])))
  /\ startswith (YouGileClient.full_url path) "/api-v2" = true.
Proof.
  intros carries. subst carries.
  unfold YouGileClient.get, YouGileClient.post, YouGileClient.put,
    YouGileClient.delete.
  repeat split; try apply sent_arguments.
  unfold YouGileClient.full_url.
  destruct (startswith path "/api-v2") eqn:E; simpl;
    [exact E|apply startswith_prefixed].
Qed.

(** X13. On an initialized client whose headers are selected, if the first
    [k] attempts fail with a timeout or a network error, [k] is at most
    [max_retries], and attempt [k] receives a response, then attempt [k] is
    made and [request] answers what [_handle_response] makes of that response,
    after exactly [k + 1] requests and the delays 1, 2, ..., [2 ^ (k - 1)]. *)
Theorem retries_until_response (settings : Settings.t)
    (transport : nat -> HttpRequest -> Result Response)
    (self : YouGileClient.t) (pool : YouGileClient.AsyncClient)
    (headers : gmap string string) (method path : string)
    (json_body params : option (gmap string pyval))
    (k : nat) (response : Response) :
  YouGileClient._client self = Some pool ->
  select_headers (YouGileClient.auth_manager self) path = Return headers ->
  Z.of_nat k <= Settings.yougile_max_retries settings ->
  (forall i, (i < k)%nat ->
     retryable (transport i (outgoing method path json_body params headers))
     = true) ->
  transport k (outgoing method path json_body params headers)
  = Return response ->
  let run :=
    YouGileClient.request settings transport self method path json_body params [] in
  run = (YouGileClient._handle_response response,
         schedule (outgoing method path json_body params headers) (S k))
  /\ attempts (snd run) = S k
  /\ delays (snd run) = map (fun i => 2 ^ Z.of_nat i) (seq 0 k).
Proof.
  intros Hc Hh Hk Hfail Ho run.
  assert (Hrun : run
                 = (YouGileClient._handle_response response,
                    schedule (outgoing method path json_body params headers)
                             (S k))).
  { subst run.
    rewrite (request_stops_at settings transport self method path json_body
               params pool headers k Hc Hh Hk).
    - now rewrite Ho.
    - intros i Hi. unfold stops. rewrite (Hfail i Hi). simpl.
      apply Z.eqb_neq. lia.
    - unfold stops. now rewrite Ho. }
  rewrite Hrun. cbn [snd]. split; [reflexivity|].
  split; [apply attempts_schedule|].
  rewrite delays_schedule. now rewrite Nat.sub_1_r.
Qed.

(** X13, an instance: two timeouts, then a 200. *)
Lemma retries_until_response_witness :
  delays (snd (YouGileClient.request Settings.default
                 (Sample.third_time Sample.ok_body)
                 (Sample.client Sample.manager) "GET" "/users" None None []))
  = [1; 2].
Proof.
  refine (proj2 (proj2 (retries_until_response Settings.default
            (Sample.third_time Sample.ok_body) (Sample.client Sample.manager)
            Sample.pool
            {[ "Authorization" := "Bearer key-1";
               "Content-Type" := "application/json";
               "Accept" := "application/json" ]}
            "GET" "/users" None None 2 Sample.ok_body _ _ _ _ _))).
  - reflexivity.
  - reflexivity.
  - simpl. lia.
  - intros [|[|i]] Hi; [reflexivity|reflexivity|lia].
  - reflexivity.
Defined.

(** X14. On an initialized client whose headers are selected, with
    [max_retries >= 0], if every attempt up to [max_retries] fails with a
    timeout or a network error, then exactly [max_retries + 1] requests are
    sent, the delays add up to [2 ^ max_retries - 1], and [request] raises the
    base error the last failure selects: "Request timeout" for a timeout,
    "Network error: <detail>" for a network error. *)
Theorem retries_exhausted (settings : Settings.t)
    (transport : nat -> HttpRequest -> Result Response)
    (self : YouGileClient.t) (pool : YouGileClient.AsyncClient)
    (headers : gmap string string) (method path : string)
    (json_body params : option (gmap string pyval)) :
  YouGileClient._client self = Some pool ->
  select_headers (YouGileClient.auth_manager self) path = Return headers ->
  0 <= Settings.yougile_max_retries settings ->
  (forall i, Z.of_nat i <= Settings.yougile_max_retries settings ->
     retryable (transport i (outgoing method path json_body params headers))
     = true) ->
  let last := Z.to_nat (Settings.yougile_max_retries settings) in
  let rq := outgoing method path json_body params headers in
  let run :=
    YouGileClient.request settings transport self method path json_body params [] in
  snd run = schedule rq (S last)
  /\ Z.of_nat (attempts (snd run)) = Settings.yougile_max_retries settings + 1
  /\ total_delay (snd run) = 2 ^ Settings.yougile_max_retries settings - 1
  /\ exists msg,
       (transport last rq = Raise (TimeoutException msg)
        /\ fst run = Raise (YouGile (exceptions.YouGileError
                                       (PStr "Request timeout") None None)))
       \/ (transport last rq = Raise (NetworkError msg)
           /\ fst run = Raise (YouGile (exceptions.YouGileError
                                          (PStr ("Network error: " +:+ msg))
                                          None None))).
Proof.
  intros Hc Hh Hmax Hfail last rq run.
  assert (Hrun : run = (conclude (transport last rq), schedule rq (S last))).
  { subst run rq.
    apply (request_stops_at settings transport self method path json_body
             params pool headers last Hc Hh).
    - subst last. lia.
    - intros i Hi. unfold stops. rewrite Hfail by (subst last; lia). simpl.
      apply Z.eqb_neq. subst last. lia.
    - unfold stops. replace (Z.of_nat last =? _) with true;
        [apply orb_true_r|].
      symmetry. apply Z.eqb_eq. subst last. lia. }
  rewrite Hrun. cbn [fst snd]. split; [reflexivity|].
  split; [rewrite attempts_schedule; subst last; lia|].
  split.
  - rewrite total_delay_schedule. simpl. rewrite Nat.sub_0_r.
    subst last. now rewrite Z2Nat.id.
  - subst rq.
    destruct (retryable_inv _ (Hfail last ltac:(subst last; lia)))
      as (msg & [Ho|Ho]); exists msg; [left|right]; rewrite Ho; now split.
Qed.

(** X14, an instance: the default settings, a pool that always times out. *)
Lemma retries_exhausted_witness :
  total_delay (snd (YouGileClient.request Settings.default Sample.always_timeout
                      (Sample.client Sample.manager) "GET" "/users" None None []))
  = 2 ^ 3 - 1.
Proof.
  refine (proj1 (proj2 (proj2 (retries_exhausted Settings.default
            Sample.always_timeout (Sample.client Sample.manager) Sample.pool
            {[ "Authorization" := "Bearer key-1";
               "Content-Type" := "application/json";
               "Accept" := "application/json" ]}
            "GET" "/users" None None _ _ _ _)))).
  - reflexivity.
  - reflexivity.
  - simpl. lia.
  - reflexivity.
Defined.

(** X15. An exception of the pool that is neither a timeout nor a network
    error is not retried and not converted: [request] raises it as it is, and
    the attempt that met it is the last. *)
Theorem other_exception_propagates (settings : Settings.t)
    (transport : nat -> HttpRequest -> Result Response)
    (self : YouGileClient.t) (method path : string)
    (json_body params : option (gmap string pyval))
    (i : nat) (rq : HttpRequest) (e : Exception) :
  let run :=
    YouGileClient.request settings transport self method path json_body params [] in
  In (EvRequest i rq) (snd run) ->
  transport i rq = Raise e ->
  match e with TimeoutException _ | NetworkError _ => False | _ => True end ->
  fst run = Raise e
  /\ attempts (snd run) = S i
  /\ delays (snd run) = map (fun j => 2 ^ Z.of_nat j) (seq 0 i).
Proof.
  intros run Hin Ho He. subst run.
  destruct (outcome_concludes settings transport self method path json_body
              params i rq Hin) as [Hres Htr].
  { rewrite Ho. now destruct e. }
  rewrite Hres, Htr, Ho, attempts_schedule, delays_schedule, Nat.sub_1_r.
  repeat split. now destruct e.
Qed.

(** X15, an instance: a protocol error on the first attempt. *)
Lemma other_exception_propagates_witness :
  fst (YouGileClient.request Settings.default
         (fun _ _ => Raise (OtherException "RemoteProtocolError" "peer closed"))
         (Sample.client Sample.manager) "GET" "/users" None None [])
  = Raise (OtherException "RemoteProtocolError" "peer closed").
Proof.
  refine (proj1 (other_exception_propagates Settings.default
            (fun _ _ => Raise (OtherException "RemoteProtocolError" "peer closed"))
            (Sample.client Sample.manager) "GET" "/users" None None 0
            (outgoing "GET" "/users" None None
               {[ "Authorization" := "Bearer key-1";
                  "Content-Type" := "application/json";
                  "Accept" := "application/json" ]})
            _ _ _ _)).
  - vm_compute. left. reflexivity.
  - reflexivity.
  - exact I.
Defined.

(** X16. The time a call spends sleeping is [2 ^ (n - 1) - 1] for [n >= 1]
    attempts and 0 without any; with [max_retries >= 0] it is at most
    [2 ^ max_retries - 1], which is 7 with the default settings. *)
Theorem total_backoff_bounded (settings : Settings.t)
    (transport : nat -> HttpRequest -> Result Response)
    (self : YouGileClient.t) (method path : string)
    (json_body params : option (gmap string pyval)) :
  let tr :=
    snd (YouGileClient.request settings transport self method path json_body
           params []) in
  total_delay tr = 2 ^ Z.of_nat (attempts tr - 1) - 1
  /\ (0 <= Settings.yougile_max_retries settings ->
      0 <= total_delay tr <= 2 ^ Settings.yougile_max_retries settings - 1)
  /\ 2 ^ Settings.yougile_max_retries Settings.default - 1 = 7.
Proof.
  intros tr. subst tr.
  destruct (run_schedule settings transport self method path json_body params)
    as (rq & Hshape & Hbound & _).
  assert (Htotal : total_delay
                     (snd (YouGileClient.request settings transport self method
                             path json_body params []))
                   = 2 ^ Z.of_nat
                           (attempts
                              (snd (YouGileClient.request settings transport self
                                      method path json_body params [])) - 1)
                     - 1).
  { rewrite Hshape at 1. apply total_delay_schedule. }
  split; [exact Htotal|]. split; [|reflexivity].
  intros Hmax. rewrite Htotal.
  assert (0 < 2 ^ Z.of_nat
                    (attempts
                       (snd (YouGileClient.request settings transport self
                               method path json_body params [])) - 1))
    by (apply Z.pow_pos_nonneg; lia).
  split; [lia|].
  apply Z.sub_le_mono_r. apply Z.pow_le_mono_r; lia.
Qed.

(** X16, an instance: the default settings, a pool that always times out. *)
Lemma total_backoff_bounded_witness :
  0 <= total_delay
         (snd (YouGileClient.request Settings.default Sample.always_timeout
                 (Sample.client Sample.manager) "GET" "/users" None None []))
    <= 2 ^ 3 - 1.
Proof.
  refine (proj1 (proj2 (total_backoff_bounded Settings.default
            Sample.always_timeout (Sample.client Sample.manager)
            "GET" "/users" None None)) _).
  simpl. lia.
Defined.

(** ** AuthManager, further *)

(** X17. After a [set_credentials] that returns, the manager is
    authenticated, [get_auth_headers] gives the bearer header of the trimmed
    key, and the stored pair does not depend on what was stored before. Both
    stored values are non-empty and free of surrounding whitespace, so
    storing them again leaves the manager as it is. *)
Theorem set_credentials_normalizes (self self' : AuthManager.t)
    (api_key company_id : string) :
  AuthManager.set_credentials self api_key company_id = (Return tt, self') ->
  AuthManager.is_authenticated self' = true
  /\ AuthManager.get_auth_headers self'
     = Return {[ "Authorization" := "Bearer " +:+ strip api_key;
                 "Content-Type" := "application/json";
                 "Accept" := "application/json" ]}
  /\ (forall other,
        AuthManager.set_credentials other api_key company_id
        = (Return tt, self'))
  /\ exists k c,
       AuthManager._api_key self' = Some k
       /\ AuthManager._company_id self' = Some c
       /\ k <> EmptyString /\ strip k = k
       /\ c <> EmptyString /\ strip c = c
       /\ AuthManager.set_credentials self' k c = (Return tt, self').
Proof.
  intros H.
  assert (Hk : strip api_key <> EmptyString).
  { intros E.
    pose proof (proj1 (set_credentials_rejects self api_key company_id
                         (or_introl E))) as Hr.
    now rewrite H in Hr. }
  assert (Hc : strip company_id <> EmptyString).
  { intros E.
    pose proof (proj1 (set_credentials_rejects self api_key company_id
                         (or_intror E))) as Hr.
    now rewrite H in Hr. }
  rewrite set_credentials_accepts in H by assumption.
  injection H as <-.
  apply truthy_true in Hk as Hk', Hc as Hc'.
  split; [unfold AuthManager.is_authenticated; simpl; now rewrite Hk', Hc'|].
  split; [unfold AuthManager.get_auth_headers; simpl; now rewrite Hk'|].
  split; [intros other; now apply set_credentials_accepts|].
  exists (strip api_key), (strip company_id).
  repeat split; try assumption; try apply strip_strip.
  rewrite set_credentials_accepts by (rewrite strip_strip; assumption).
  now rewrite !strip_strip.
Qed.

(** X17, an instance: a padded key and company id. *)
Lemma set_credentials_normalizes_witness :
  AuthManager.get_auth_headers
    {| AuthManager._api_key := Some "key-2";
       AuthManager._company_id := Some "company-2" |}
  = Return {[ "Authorization" := "Bearer " +:+ strip " key-2 ";
              "Content-Type" := "application/json";
              "Accept" := "application/json" ]}.
Proof.
  refine (proj1 (proj2 (set_credentials_normalizes Sample.manager
            {| AuthManager._api_key := Some "key-2";
               AuthManager._company_id := Some "company-2" |}
            " key-2 " "company-2 " _))).
  reflexivity.
Defined.

(** ** The endpoints *)

Section EndpointLemmas.

Variable settings : Settings.t.
Variable transport : nat -> HttpRequest -> Result Response.

(** A call followed by a pure step sends what the call sends. *)
Lemma bind_lift {A B : Type} (m : IO A) (f : A -> Result B)
    (tr : list Event) :
  bind m (fun a => lift (f a)) tr
  = (match fst (m tr) with Return a => f a | Raise e => Raise e end,
     snd (m tr)).
Proof. unfold bind, lift. now destruct (m tr) as [[a|e] tr']. Qed.

(** The requests of a call carry the headers selected for its path. *)
Lemma sent_headers (self : YouGileClient.t) (method path : string)
    (json_body params : option (gmap string pyval))
    (headers : gmap string string) :
  select_headers (YouGileClient.auth_manager self) path = Return headers ->
  Forall (fun rq => rq = outgoing method path json_body params headers)
         (sent (snd (YouGileClient.request settings transport self method path
                       json_body params []))).
Proof.
  intros Hh.
  pose proof (request_cases settings transport self method path json_body
                params) as Hrun.
  destruct (YouGileClient.request _ _ _ _ _ _ _ _) as [res tr]. cbn [snd].
  inversion Hrun as [| | |pool h k Hc Hh' Hk Hbefore Hstop]; subst;
    try constructor.
  assert (h = headers) as -> by congruence.
  change (failed_attempts ?r 0 k ++ [EvRequest k ?r])%list
    with (schedule r (S k)).
  rewrite sent_schedule. apply Forall_forall.
  intros rq Hin%list_elem_of_In. now apply repeat_spec in Hin.
Qed.

(** On a path of the auth family the credential plays no part. *)
Lemma auth_path_any_manager (self : YouGileClient.t) (am : AuthManager.t)
    (method path : string) (json_body params : option (gmap string pyval))
    (tr : list Event) :
  startswith path "/auth/" || startswith path "/api-v2/auth/" = true ->
  YouGileClient.request settings transport (with_manager self am) method path
    json_body params tr
  = YouGileClient.request settings transport self method path json_body
      params tr.
Proof.
  intros Hp. unfold YouGileClient.request, with_manager. simpl.
  destruct (YouGileClient._client self); [|reflexivity].
  now rewrite Hp.
Qed.

End EndpointLemmas.

(** X18. [create_api_key] validates before it touches the client: a login
    that [validate_email] refuses, or else a company id that [validate_uuid]
    refuses, makes it raise that [ValidationError] with nothing sent, even on
    a client that was never initialized; the login is checked first. *)
Theorem create_api_key_validates_first (settings : Settings.t)
    (transport : nat -> HttpRequest -> Result Response)
    (uuid_UUID : string -> bool) (client : YouGileClient.t)
    (login password company_id : string) (tr : list Event) :
  (forall e,
      validation.validate_email (PStr login) = Raise e ->
      api.create_api_key settings transport uuid_UUID client login password
        company_id tr
      = (Raise e, tr))
  /\ (forall l e,
        validation.validate_email (PStr login) = Return l ->
        validation.validate_uuid uuid_UUID (PStr company_id) "companyId"
        = Raise e ->
        api.create_api_key settings transport uuid_UUID client login password
          company_id tr
        = (Raise e, tr))
  /\ (uuid_UUID company_id = false ->
      exists msg,
        api.create_api_key settings transport uuid_UUID client login password
          company_id tr
        = (Raise (YouGile (exceptions.ValidationError (PStr msg)
                             (Some (if raises (validation.validate_email
                                                 (PStr login))
                                    then "email" else "companyId")))), tr)).
Proof.
  assert (H1 : forall e,
            validation.validate_email (PStr login) = Raise e ->
            api.create_api_key settings transport uuid_UUID client login
              password company_id tr
            = (Raise e, tr)).
  { intros e He. unfold api.create_api_key, bind, lift. now rewrite He. }
  assert (H2 : forall l e,
            validation.validate_email (PStr login) = Return l ->
            validation.validate_uuid uuid_UUID (PStr company_id) "companyId"
            = Raise e ->
            api.create_api_key settings transport uuid_UUID client login
              password company_id tr
            = (Raise e, tr)).
  { intros l e Hl He. unfold api.create_api_key, bind, lift.
    now rewrite Hl, He. }
  split; [exact H1|]. split; [exact H2|].
  intros Hu.
  destruct (validation.validate_email (PStr login)) as [l|e] eqn:Hl.
  - assert (Hv : exists msg,
              validation.validate_uuid uuid_UUID (PStr company_id) "companyId"
              = Raise (YouGile (exceptions.ValidationError (PStr msg)
                                  (Some "companyId")))).
    { unfold validation.validate_uuid. rewrite Hu.
      destruct (truthy company_id); simpl; eexists; reflexivity. }
    destruct Hv as [msg Hv]. exists msg. now apply (H2 l).
  - assert (He : exists msg,
              e = YouGile (exceptions.ValidationError (PStr msg)
                             (Some "email"))).
    { revert Hl. simpl. destruct (truthy login); simpl.
      - destruct (re.match_ validation.pattern (lower (strip login)));
          simpl; [discriminate|]. intros [= <-]. eexists; reflexivity.
      - intros [= <-]. eexists; reflexivity. }
    destruct He as [msg ->]. exists msg. now apply H1.
Qed.

(** X18, an instance: a malformed login on a client never initialized. *)
Lemma create_api_key_validates_first_witness :
  api.create_api_key Settings.default Sample.always_timeout (fun _ => true)
    (YouGileClient.__init__ Settings.default None) "not-an-address" "secret"
    "c-1" []
  = (Raise (YouGile (exceptions.ValidationError (PStr "Invalid email format")
                       (Some "email"))), []).
Proof.
  refine (proj1 (create_api_key_validates_first Settings.default
            Sample.always_timeout (fun _ => true)
            (YouGileClient.__init__ Settings.default None)
            "not-an-address" "secret" "c-1" []) _ _).
  reflexivity.
Defined.

(** X19. [create_api_key] needs no credential: with inputs that pass
    validation, every request it sends is a POST to "/api-v2/auth/keys" whose
    body holds the normalized login, the password and the trimmed company id,
    under the two JSON headers and no [Authorization] header; and its outcome
    is the same whatever [AuthManager] the client holds. *)
Theorem create_api_key_needs_no_credential (settings : Settings.t)
    (transport : nat -> HttpRequest -> Result Response)
    (uuid_UUID : string -> bool) (client : YouGileClient.t)
    (login password company_id l c : string) :
  validation.validate_email (PStr login) = Return l ->
  validation.validate_uuid uuid_UUID (PStr company_id) "companyId" = Return c ->
  let run :=
    api.create_api_key settings transport uuid_UUID client login password
      company_id [] in
  Forall (fun rq =>
            rq_method rq = "POST" /\ rq_url rq = "/api-v2/auth/keys"
            /\ rq_json rq = Some {[ "login" := PStr l;
                                    "password" := PStr password;
                                    "companyId" := PStr c ]}
            /\ rq_params rq = None
            /\ rq_headers rq = {[ "Content-Type" := "application/json";
                                  "Accept" := "application/json" ]}
            /\ rq_headers rq !! "Authorization" = None)
         (sent (snd run))
  /\ c = strip company_id
  /\ (forall am,
        api.create_api_key settings transport uuid_UUID (with_manager client am)
          login password company_id []
        = run).
Proof.
  intros Hl Hc run. subst run.
  assert (Hrun : forall cl,
            api.create_api_key settings transport uuid_UUID cl login password
              company_id []
            = bind (YouGileClient.post settings transport cl "/auth/keys"
                      (Some {[ "login" := PStr l; "password" := PStr password;
                               "companyId" := PStr c ]}) None)
                   (fun response =>
                      lift (py_get response "key" (PStr EmptyString))) []).
  { intros cl. unfold api.create_api_key.
    unfold bind at 1. unfold lift at 1. rewrite Hl.
    unfold bind at 1. unfold lift at 1. now rewrite Hc. }
  split; [|split].
  - rewrite Hrun, bind_lift. cbn [snd]. unfold YouGileClient.post.
    eapply Forall_impl;
      [apply (sent_headers settings transport client "POST" "/auth/keys");
       reflexivity|].
    intros rq ->. now repeat split.
  - revert Hc. simpl. destruct (truthy company_id); simpl; [|discriminate].
    destruct (uuid_UUID company_id); [|discriminate]. now intros [= <-].
  - intros am. rewrite !Hrun, !bind_lift. unfold YouGileClient.post.
    now rewrite auth_path_any_manager.
Qed.

(** X19, an instance: a client around an empty manager, the pool answering
    with a key. *)
Lemma create_api_key_needs_no_credential_witness :
  api.create_api_key Settings.default
    (Sample.always {| status_code := 201; text := "{}";
                      json := Some (PDict {[ "key" := PStr "k-1" ]}) |})
    (fun _ => true)
    (with_manager (Sample.client AuthManager.auth_manager) Sample.manager)
    "Ann@Example.org" "secret" " c-1 " []
  = api.create_api_key Settings.default
      (Sample.always {| status_code := 201; text := "{}";
                        json := Some (PDict {[ "key" := PStr "k-1" ]}) |})
      (fun _ => true) (Sample.client AuthManager.auth_manager)
      "Ann@Example.org" "secret" " c-1 " [].
Proof.
  refine (proj2 (proj2 (create_api_key_needs_no_credential Settings.default
            (Sample.always {| status_code := 201; text := "{}";
                              json := Some (PDict {[ "key" := PStr "k-1" ]}) |})
            (fun _ => true) (Sample.client AuthManager.auth_manager)
            "Ann@Example.org" "secret" " c-1 " "ann@example.org" "c-1" _ _))
          Sample.manager).
  - reflexivity.
  - reflexivity.
Defined.

(** X20. What [get_users] makes of a 200 or 201: the ["content"] entry of
    a body that is a JSON object, the empty list when the object has no such
    entry, and also the empty list when the body does not decode at all (the
    fallback dictionary of [_handle_response] has no ["content"]); a body
    that decodes to anything but an object makes it raise [AttributeError]. *)
Theorem get_users_outcome (settings : Settings.t)
    (transport : nat -> HttpRequest -> Result Response)
    (client : YouGileClient.t) (i : nat) (rq : HttpRequest)
    (response : Response) :
  let run := api.get_users settings transport client [] in
  In (EvRequest i rq) (snd run) ->
  transport i rq = Return response ->
  status_code response = 200 \/ status_code response = 201 ->
  fst run
  = match json response with
    | Some (PDict d) => Return (default (PList []) (d !! "content"))
    | Some other =>
        Raise (AttributeError ("'" +:+ type_name other
                               +:+ "' object has no attribute 'get'"))
    | None => Return (PList [])
    end.
Proof.
  intros run. subst run. unfold api.get_users. rewrite bind_lift. cbn [fst snd].
  unfold YouGileClient.get. intros Hin Ho Hcode.
  destruct (response_concludes settings transport client "GET" "/users" None
              None i rq response Hin Ho) as [Hres _].
  rewrite Hres, (handle_response_success response Hcode).
  destruct (json response) as [[]|]; reflexivity.
Qed.

(** X20, an instance: a 200 whose body is not JSON gives no users. *)
Lemma get_users_outcome_witness :
  fst (api.get_users Settings.default
         (Sample.always {| status_code := 200; text := "<html>"; json := None |})
         (Sample.client Sample.manager) [])
  = Return (PList []).
Proof.
  refine (get_users_outcome Settings.default
            (Sample.always {| status_code := 200; text := "<html>";
                              json := None |})
            (Sample.client Sample.manager) 0
            (outgoing "GET" "/users" None None
               {[ "Authorization" := "Bearer key-1";
                  "Content-Type" := "application/json";
                  "Accept" := "application/json" ]})
            {| status_code := 200; text := "<html>"; json := None |} _ _ _).
  - vm_compute. left. reflexivity.
  - reflexivity.
  - left. reflexivity.
Defined.

(** X21. [get_api_keys] hands on a response only if it is a list: for a
    200 or 201 it returns the body when the body is a JSON array and the
    empty list for any other body, an object, a scalar or one that does not
    decode; so whatever it returns is a list, and it never raises for want of
    a key in the response. *)
Theorem get_api_keys_returns_list (settings : Settings.t)
    (transport : nat -> HttpRequest -> Result Response)
    (uuid_UUID : string -> bool) (client : YouGileClient.t)
    (login password : string) (company_id : option string) :
  (forall i rq response,
      In (EvRequest i rq)
         (snd (api.get_api_keys settings transport uuid_UUID client login
                 password company_id [])) ->
      transport i rq = Return response ->
      status_code response = 200 \/ status_code response = 201 ->
      fst (api.get_api_keys settings transport uuid_UUID client login password
             company_id [])
      = Return (match json response with
                | Some (PList l) => PList l
                | _ => PList []
                end))
  /\ (forall tr v,
        fst (api.get_api_keys settings transport uuid_UUID client login
               password company_id tr) = Return v ->
        exists l, v = PList l).
Proof.
  split.
  - assert (Hlast : forall (credentials : gmap string pyval) i rq response,
              In (EvRequest i rq)
                 (snd (bind (YouGileClient.post settings transport client
                               "/auth/keys/get" (Some credentials) None)
                            (fun r =>
                               ret (match r with
                                    | PList _ => r
                                    | _ => PList []
                                    end)) [])) ->
              transport i rq = Return response ->
              status_code response = 200 \/ status_code response = 201 ->
              fst (bind (YouGileClient.post settings transport client
                           "/auth/keys/get" (Some credentials) None)
                        (fun r =>
                           ret (match r with
                                | PList _ => r
                                | _ => PList []
                                end)) [])
              = Return (match json response with
                        | Some (PList l) => PList l
                        | _ => PList []
                        end)).
    { intros credentials i rq response Hin Ho Hcode.
      unfold YouGileClient.post in *.
      assert (Hsnd : forall (m : IO pyval) (f : pyval -> pyval) tr,
                bind m (fun r => ret (f r)) tr
                = (result_map f (fst (m tr)), snd (m tr))).
      { intros m f tr. unfold bind, ret. now destruct (m tr) as [[a|e] tr']. }
      rewrite Hsnd in Hin |- *. cbn [fst snd] in Hin |- *.
      destruct (response_concludes settings transport client "POST"
                  "/auth/keys/get" (Some credentials) None i rq response
                  Hin Ho) as [Hres _].
      rewrite Hres, (handle_response_success response Hcode). simpl.
      destruct (json response) as [[]|]; reflexivity. }
    assert (Hform :
      (exists e,
          api.get_api_keys settings transport uuid_UUID client login password
            company_id [] = (Raise e, []))
      \/ exists credentials : gmap string pyval,
           api.get_api_keys settings transport uuid_UUID client login password
             company_id []
           = bind (YouGileClient.post settings transport client
                     "/auth/keys/get" (Some credentials) None)
                  (fun r =>
                     ret (match r with PList _ => r | _ => PList [] end)) []).
    { unfold api.get_api_keys, bind, lift, ret.
      destruct (validation.validate_email (PStr login)) as [l|e];
        [|left; eexists; reflexivity].
      destruct company_id as [c|]; [|right; eexists; reflexivity].
      destruct (truthy c); [|right; eexists; reflexivity].
      destruct (validation.validate_uuid uuid_UUID (PStr c) "companyId");
        [right; eexists; reflexivity|left; eexists; reflexivity]. }
    intros i rq response.
    destruct Hform as [[e ->]|[credentials ->]]; [intros []|apply Hlast].
  - intros tr v.
    unfold api.get_api_keys, bind, lift, ret.
    destruct (validation.validate_email (PStr login)) as [l|e]; [|discriminate].
    assert (Hlast : forall (credentials : gmap string pyval) tr0,
              fst (let (r, tr') :=
                     YouGileClient.post settings transport client
                       "/auth/keys/get" (Some credentials) None tr0 in
                   match r with
                   | Return a =>
                       (Return match a with PList _ => a | _ => PList [] end,
                        tr')
                   | Raise e => (Raise e, tr')
                   end) = Return v ->
              exists l, v = PList l).
    { intros credentials tr0.
      destruct (YouGileClient.post _ _ _ _ _ _ _) as [[a|e] tr'];
        [|discriminate].
      cbn [fst]. intros [= <-]. destruct a; eexists; reflexivity. }
    destruct company_id as [c|]; [|apply Hlast].
    destruct (truthy c); [|apply Hlast].
    destruct (validation.validate_uuid uuid_UUID (PStr c) "companyId");
      [apply Hlast|discriminate].
Qed.

(** X21, an instance: a 200 whose body is an object where a list was
    expected. *)
Lemma get_api_keys_returns_list_witness :
  fst (api.get_api_keys Settings.default
         (Sample.always {| status_code := 200; text := "{}";
                           json := Some (PDict {[ "id" := PInt 7 ]}) |})
         (fun _ => true) (Sample.client AuthManager.auth_manager)
         "ann@example.org" "secret" None [])
  = Return (PList []).
Proof.
  refine (proj1 (get_api_keys_returns_list Settings.default
            (Sample.always {| status_code := 200; text := "{}";
                              json := Some (PDict {[ "id" := PInt 7 ]}) |})
            (fun _ => true) (Sample.client AuthManager.auth_manager)
            "ann@example.org" "secret" None) 0%nat
            (outgoing "POST" "/auth/keys/get"
               (Some {[ "login" := PStr "ann@example.org";
                        "password" := PStr "secret" ]})
               None
               {[ "Content-Type" := "application/json";
                  "Accept" := "application/json" ]})
            {| status_code := 200; text := "{}";
               json := Some (PDict {[ "id" := PInt 7 ]}) |} _ _ _).
  - vm_compute. left. reflexivity.
  - reflexivity.
  - left. reflexivity.
Defined.

(** X22. [get_user], [update_user] and [delete_user] check the id before
    anything else: an id [validate_uuid] refuses makes each raise that
    [ValidationError] with nothing sent, on any client; an id it accepts is
    trimmed, and every request then sent goes to "/api-v2/users/<id>" with
    the verb GET, PUT or DELETE. *)
Theorem user_endpoints_validate_first (settings : Settings.t)
    (transport : nat -> HttpRequest -> Result Response)
    (uuid_UUID : string -> bool) (client : YouGileClient.t)
    (user_id : string) (user_data : gmap string pyval) :
  (forall e tr,
      validation.validate_uuid uuid_UUID (PStr user_id) "user_id" = Raise e ->
      api.get_user settings transport uuid_UUID client user_id tr = (Raise e, tr)
      /\ api.update_user settings transport uuid_UUID client user_id user_data tr
         = (Raise e, tr)
      /\ api.delete_user settings transport uuid_UUID client user_id tr
         = (Raise e, tr))
  /\ (forall u,
        validation.validate_uuid uuid_UUID (PStr user_id) "user_id" = Return u ->
        let goes verb :=
          fun rq => rq_method rq = verb
                    /\ rq_url rq = "/api-v2/users/" +:+ strip user_id in
        Forall (goes "GET")
               (sent (snd (api.get_user settings transport uuid_UUID client
                             user_id [])))
        /\ Forall (goes "PUT")
                  (sent (snd (api.update_user settings transport uuid_UUID
                                client user_id user_data [])))
        /\ Forall (goes "DELETE")
                  (sent (snd (api.delete_user settings transport uuid_UUID
                                client user_id [])))).
Proof.
  split.
  - intros e tr He.
    unfold api.get_user, api.update_user, api.delete_user, bind, lift.
    now rewrite He.
  - intros u Hu goes. subst goes.
    assert (u = strip user_id) as ->.
    { revert Hu. simpl. destruct (truthy user_id); simpl; [|discriminate].
      destruct (uuid_UUID user_id); [|discriminate]. now intros [= <-]. }
    assert (Hurl : YouGileClient.full_url ("/users/" +:+ strip user_id)
                   = "/api-v2/users/" +:+ strip user_id) by reflexivity.
    unfold api.get_user, api.update_user, api.delete_user, bind, lift.
    rewrite Hu.
    unfold YouGileClient.get, YouGileClient.put, YouGileClient.delete.
    repeat split;
      (eapply Forall_impl; [apply sent_arguments|];
       intros rq (Hm & Hpath & _); split; [exact Hm|now rewrite Hpath]).
Qed.

(** X22, an instance: an id the parser refuses, a client never initialized. *)
Lemma user_endpoints_validate_first_witness :
  api.delete_user Settings.default Sample.always_timeout (fun _ => false)
    (YouGileClient.__init__ Settings.default None) "42" []
  = (Raise (YouGile (exceptions.ValidationError
                       (PStr "user_id must be a valid UUID") (Some "user_id"))),
     []).
Proof.
  refine (proj2 (proj2 (proj1 (user_endpoints_validate_first Settings.default
            Sample.always_timeout (fun _ => false)
            (YouGileClient.__init__ Settings.default None) "42" ∅) _ [] _))).
  reflexivity.
Defined.

(** X23, an instance: the 404 of the specification's scenario. *)
Lemma error_response_classified_witness :
  exists e,
    fst (YouGileClient.request Settings.default
           (Sample.always Sample.task_not_found)
           (Sample.client Sample.manager) "GET" "/tasks/42" None None [])
    = Raise (YouGile e)
    /\ exceptions.status_code e = Some 404
    /\ exceptions.message e = PStr "task not found"
    /\ exceptions.class_ e = exceptions.NotFoundError_ None None
    /\ exceptions.details e = ∅.
Proof.
  refine (error_response_classified Settings.default
            (Sample.always Sample.task_not_found)
            (Sample.client Sample.manager) "GET" "/tasks/42" None None 0
            (outgoing "GET" "/tasks/42" None None
               {[ "Authorization" := "Bearer key-1";
                  "Content-Type" := "application/json";
                  "Accept" := "application/json" ]})
            Sample.task_not_found {[ "error" := PStr "task not found" ]}
            _ _ _ _ _).
  - vm_compute. left. reflexivity.
  - reflexivity.
  - discriminate.
  - discriminate.
  - reflexivity.
Defined.
